(** * cookies: declaring browser cookies by intent

    A shallow embedding of package [cookies] (cookies.go): the scope parser
    [parseReturnTo] and the compiler [Compile], together with the parts of
    Go's [strings], [time] and [net/http] packages that they call.

    Go strings are byte sequences and are modelled by [string]; [int] and
    [time.Duration] are 64-bit integers and are modelled by [Z]; [float64]
    is modelled by the IEEE 754 binary64 specification [spec_float]. *)

From Stdlib Require Import ZArith Bool Ascii String List Lia.
From Stdlib Require Import Floats.SpecFloat.
Import ListNotations.

Local Open Scope string_scope.
Local Open Scope Z_scope.

(** ** Package [strings] *)

Module strings.

(** [len(s)] as an integer index. *)
Definition len (s : string) : nat := String.length s.

(** [s[i:j]], for [i <= j <= len(s)]. *)
Definition slice (s : string) (i j : nat) : string :=
  String.substring i (j - i) s.

(** [Index(s, substr)]: the index of the first instance of [substr] in
    [s], or [None] where Go returns [-1]. *)
Definition Index (s substr : string) : option nat :=
  String.index 0 substr s.

(** [Contains(s, substr)] is [Index(s, substr) >= 0]. *)
Definition Contains (s substr : string) : bool :=
  match Index s substr with
  | Some _ => true
  | None => false
  end.

(** [HasPrefix]: [len(s) >= len(prefix) && s[:len(prefix)] == prefix]. *)
Definition HasPrefix (s prefix : string) : bool :=
  (len prefix <=? len s)%nat && (slice s 0 (len prefix) =? prefix)%string.

(** [HasSuffix]:
    [len(s) >= len(suffix) && s[len(s)-len(suffix):] == suffix]. *)
Definition HasSuffix (s suffix : string) : bool :=
  (len suffix <=? len s)%nat
  && (slice s (len s - len suffix) (len s) =? suffix)%string.

(** [TrimPrefix] returns [s] without the leading [prefix]; [s] itself
    when it does not start with [prefix]. *)
Definition TrimPrefix (s prefix : string) : string :=
  if HasPrefix s prefix then slice s (len prefix) (len s) else s.

(** [TrimSuffix] returns [s] without the trailing [suffix]; [s] itself
    when it does not end with [suffix]. *)
Definition TrimSuffix (s suffix : string) : string :=
  if HasSuffix s suffix then slice s 0 (len s - len suffix) else s.

(** [Cut] slices [s] around the first instance of [sep]: the text
    before it, the text after it, and whether [sep] appears.  When it
    does not, the result is [(s, "", false)]. *)
Definition Cut (s sep : string) : string * string * bool :=
  match Index s sep with
  | Some i => (slice s 0 i, slice s (i + len sep) (len s), true)
  | None => (s, "", false)
  end.

End strings.

(** ** Package [time] *)

Module time.

(** [Duration] is an [int64] count of nanoseconds. *)
Definition Duration : Type := Z.

Definition Nanosecond : Duration := 1.
Definition Microsecond : Duration := 1000 * Nanosecond.
Definition Millisecond : Duration := 1000 * Microsecond.
Definition Second : Duration := 1000 * Millisecond.
Definition Minute : Duration := 60 * Second.
Definition Hour : Duration := 60 * Minute.

(** [float64] values, with the precision and the exponent bound of
    binary64. *)
Definition float64 : Type := spec_float.
Definition prec : Z := 53.
Definition emax : Z := 1024.

(** The conversion [float64(n)] of an integer: the nearest binary64. *)
Definition float64_of_int (n : Z) : float64 :=
  binary_normalize prec emax n 0 false.

(** [Seconds] returns the duration as a floating point number of
    seconds:
<<
    sec := d / Second
    nsec := d % Second
    return float64(sec) + float64(nsec)/1e9
>>
    Go's [/] and [%] on integers truncate toward zero. *)
Definition Seconds (d : Duration) : float64 :=
  let sec := Z.quot d Second in
  let nsec := Z.rem d Second in
  SFadd prec emax
    (float64_of_int sec)
    (SFdiv prec emax (float64_of_int nsec) (float64_of_int 1000000000)).

(** A [Time] is an instant: the seconds elapsed since January 1, year 1
    00:00:00 UTC and the nanoseconds within that second.  The zero value
    of the type is that instant. *)
Record Time : Type := mkTime { sec : Z; nsec : Z }.

Definition zero : Time := mkTime 0 0.

(** [IsZero]: [t.sec() == 0 && t.nsec() == 0]. *)
Definition IsZero (t : Time) : bool := (sec t =? 0) && (nsec t =? 0).

End time.

(** ** Conversion of [float64] to [int] *)

Definition minInt : Z := - 2 ^ 63.
Definition maxInt : Z := 2 ^ 63 - 1.

(** The fraction of a finite float is discarded (truncation toward zero). *)
Definition truncate (f : time.float64) : option Z :=
  match f with
  | S754_zero _ => Some 0
  | S754_finite s m e =>
      Some (cond_Zopp s
              (match e with
               | Z0 => Zpos m
               | Zpos _ => Zpos m * 2 ^ e
               | Zneg k => Zpos m / 2 ^ Zpos k
               end))
  | S754_infinity _ | S754_nan => None
  end.

(** [int(f)] on a 64-bit target.  The language leaves the result open when
    the truncated value does not fit; the amd64 conversion instruction
    gives the most negative integer there. *)
Definition int_of_float64 (f : time.float64) : Z :=
  match truncate f with
  | Some z => if (minInt <=? z) && (z <=? maxInt) then z else minInt
  | None => minInt
  end.

(** A float that is not above zero: a zero, a negative number, or one of
    the values no duration produces. *)
Definition notPositive (f : time.float64) : Prop :=
  match f with
  | S754_finite s _ _ | S754_infinity s => s = true
  | S754_zero _ | S754_nan => True
  end.

(** ** Package [net/http]: the cookie record *)

Module http.

(** [SameSite] modes, in the order of the package's constants. *)
Inductive SameSite : Type :=
| SameSiteDefaultMode
| SameSiteLaxMode
| SameSiteStrictMode
| SameSiteNoneMode.

Definition SameSite_eqb (a b : SameSite) : bool :=
  match a, b with
  | SameSiteDefaultMode, SameSiteDefaultMode
  | SameSiteLaxMode, SameSiteLaxMode
  | SameSiteStrictMode, SameSiteStrictMode
  | SameSiteNoneMode, SameSiteNoneMode => true
  | _, _ => false
  end.

(** The fields of [http.Cookie] that [Compile] fills in; the others keep
    their zero values. *)
Module Cookie.
Record t : Type := mk {
  Name : string;
  Value : string;
  Domain : string;
  Path : string;
  Expires : time.Time;
  MaxAge : Z;
  Secure : bool;
  HttpOnly : bool;
  SameSite : SameSite
}.
End Cookie.

End http.

(** ** Package [cookies] *)

(** [Source] describes allowed request sources for a browser to send a
    cookie.  It is a string type. *)
Definition Source : Type := string.

Definition SameSite : Source := "A->A".
Definition SameSiteOrAnySiteByUser : Source := "A->A,*-(user)->A".
Definition AnySite : Source := "*->A".

(** [Expiration] describes cookie expiration limits. *)
Module Expiration.
Record t : Type := mk {
  Session : bool;
  At : time.Time;
  After : time.Duration
}.
End Expiration.

(** [WhenUAIsClosed] is the predefined expiration value. *)
Definition WhenUAIsClosed : Expiration.t :=
  Expiration.mk true time.zero 0.

(** [At] creates expiration at the specified moment. *)
Definition At (t : time.Time) : Expiration.t :=
  Expiration.mk false t 0.

(** [After] creates expiration after the specified duration. *)
Definition After (d : time.Duration) : Expiration.t :=
  Expiration.mk false time.zero d.

(** [Immediately] creates immediate expiration. *)
Definition Immediately : Expiration.t :=
  Expiration.mk false time.zero (- time.Second).

(** [Intent] is a description of a browser cookie. *)
Module Intent.
Record t : Type := mk {
  Name : string;
  Value : string;
  Expires : Expiration.t;
  ReturnTo : string;
  ReturnOnNavigationFrom : Source;
  RevealToJavaScript : bool
}.
End Intent.

(** *** Errors

    The source builds every error with [fmt.Errorf]; one constructor stands
    for each message, carrying the value the message quotes. *)
Inductive error : Type :=
| ErrNoSchemaSeparator (returnTo : string)
    (* "%q is not in form ...://..." *)
| ErrSchema (returnTo : string)
    (* "%q schema is not https or https?" *)
| ErrNoPathSeparator (returnTo : string)
    (* "%q is not in form ...://.../..." *)
| ErrExplicitDomain (returnTo : string)
    (* "%q has explicit domain without **." *)
| ErrDoubleDotDomain
    (* "domain should not have form **..example.com" *)
| ErrPathPattern (returnTo : string)
    (* "%q is not in form ...://.../...**" *)
| ErrExclusiveExpiration
    (* "Expires.After and Expires.At are mutually exclusive" *)
| ErrNoExpiration
    (* "At least one of WhenUAIsClosed, At, After, or Immediately needs
       to be set" *)
| ErrSecurePrefix
    (* "Cookies named __Secure-* must use schema https:" *)
| ErrHostPrefix
    (* "Cookies named __Host-* must have ReturnTo https://<current>/**" *)
| ErrUnsupportedSource (v : Source)
    (* "unsupported ReturnOnNavigationFrom value %q" *)
| ErrSameSiteNoneInsecure
    (* "cookie with SameSite=None must be secure" *)
| ErrInvalidCookie (msg : string)
    (* the error of cookie.Valid(), returned as it is *).

(** A Go result [(v, error)]: either the value or the error. *)
Inductive result (A : Type) : Type :=
| Ok (v : A)
| Err (e : error).

Arguments Ok {A} v.
Arguments Err {A} e.

Definition bind {A B : Type} (r : result A) (k : A -> result B) : result B :=
  match r with
  | Ok v => k v
  | Err e => Err e
  end.

Notation "x <- r ;; k" := (bind r (fun x => k))
  (at level 61, r at next level, right associativity).
Notation "' p <- r ;; k" := (bind r (fun x => let p := x in k))
  (at level 61, p pattern, r at next level, right associativity).

(** [failIf b e] fails with [e] when [b] holds: the shape of
    [if b { return ..., err }]. *)
Definition failIf (b : bool) (e : error) : result unit :=
  if b then Err e else Ok tt.

(** The kinds of failure, as the design document names them. *)
Inductive ErrorKind : Type :=
| SyntaxError
| SchemaError
| DomainPatternError
| PathPatternError
| ConflictingExpirationError
| MissingExpirationError
| PrefixConstraintError
| UnsupportedPolicyError
| InsecureNoneError
| DelegatedValidationError.

Definition kind (e : error) : ErrorKind :=
  match e with
  | ErrNoSchemaSeparator _ | ErrNoPathSeparator _ => SyntaxError
  | ErrSchema _ => SchemaError
  | ErrExplicitDomain _ | ErrDoubleDotDomain => DomainPatternError
  | ErrPathPattern _ => PathPatternError
  | ErrExclusiveExpiration => ConflictingExpirationError
  | ErrNoExpiration => MissingExpirationError
  | ErrSecurePrefix | ErrHostPrefix => PrefixConstraintError
  | ErrUnsupportedSource _ => UnsupportedPolicyError
  | ErrSameSiteNoneInsecure => InsecureNoneError
  | ErrInvalidCookie _ => DelegatedValidationError
  end.

(** *** The scope parser *)

(** The [switch schema] of [parseReturnTo] (cookies.go, lines 75-83). *)
Definition schemaSecure (returnTo schema : string) : result bool :=
  if (schema =? "https")%string then Ok true
  else if (schema =? "https?")%string then Ok false
  else Err (ErrSchema returnTo).

(** The host part of [parseReturnTo] (lines 90-100): [<current>] or
    [**.suffix]. *)
Definition hostDomain (returnTo domain : string) : result string :=
  if (domain =? "<current>")%string then Ok ""
  else
    _ <- failIf (negb (strings.HasPrefix domain "**."))
           (ErrExplicitDomain returnTo) ;;
    let domain := strings.TrimPrefix domain "**." in
    _ <- failIf (strings.HasPrefix domain ".") ErrDoubleDotDomain ;;
    Ok domain.

(** [parseReturnTo] (lines 65-110) returns the secure flag, the domain and
    the path of a [ReturnTo] pattern, or an error. *)
Definition parseReturnTo (returnTo : string)
  : result (bool * string * string) :=
  if (returnTo =? "")%string then Ok (true, "", "/")
  else
    let '(schema, rest, ok) := strings.Cut returnTo "://" in
    _ <- failIf (negb ok) (ErrNoSchemaSeparator returnTo) ;;
    secure <- schemaSecure returnTo schema ;;
    let '(domain, path, ok) := strings.Cut rest "/" in
    _ <- failIf (negb ok) (ErrNoPathSeparator returnTo) ;;
    domain <- hostDomain returnTo domain ;;
    _ <- failIf (negb (strings.HasSuffix path "**"))
           (ErrPathPattern returnTo) ;;
    let path := strings.TrimSuffix path "**" in
    let path := if (path =? "")%string then "/" else path in
    Ok (secure, domain, path).


(** *** The compiler *)

(** The expiration [switch] of [Compile] (lines 123-133): the [Expires]
    timestamp and the [MaxAge] of the cookie.  Both variables start at
    their zero values and at most one branch assigns one of them. *)
Definition resolveExpiration (e : Expiration.t) : result (time.Time * Z) :=
  if negb (time.IsZero (Expiration.At e)) then
    Ok (Expiration.At e, 0)
  else if negb (Expiration.After e =? 0) then
    Ok (time.zero, int_of_float64 (time.Seconds (Expiration.After e)))
  else if Expiration.Session e then
    Ok (time.zero, 0)
  else
    Err ErrNoExpiration.

(** The [switch i.ReturnOnNavigationFrom] of [Compile] (lines 142-152). *)
Definition sameSiteMode (s : Source) : result http.SameSite :=
  if (s =? SameSite)%string then Ok http.SameSiteStrictMode
  else if (s =? SameSiteOrAnySiteByUser)%string || (s =? "")%string then
    Ok http.SameSiteLaxMode
  else if (s =? AnySite)%string then Ok http.SameSiteNoneMode
  else Err (ErrUnsupportedSource s).

Section Compiler.

(** [cookie.Valid()] belongs to [net/http]: it is a parameter of the
    compiler.  It returns the message of its error, if any. *)
Variable Valid : http.Cookie.t -> option string.

(** [Compile] (lines 113-175) transforms an [Intent] into an
    [http.Cookie]. *)
Definition Compile (i : Intent.t) : result http.Cookie.t :=
  let e := Intent.Expires i in
  _ <- failIf (negb (Expiration.After e =? 0)
               && negb (time.IsZero (Expiration.At e)))
         ErrExclusiveExpiration ;;
  ' (secure, domain, path) <- parseReturnTo (Intent.ReturnTo i) ;;
  ' (expires, maxAge) <- resolveExpiration e ;;
  _ <- failIf (strings.HasPrefix (Intent.Name i) "__Secure-" && negb secure)
         ErrSecurePrefix ;;
  _ <- failIf (strings.HasPrefix (Intent.Name i) "__Host-"
               && (negb secure
                   || negb (domain =? "")%string
                   || negb (path =? "/")%string))
         ErrHostPrefix ;;
  sameSite <- sameSiteMode (Intent.ReturnOnNavigationFrom i) ;;
  _ <- failIf (negb secure && http.SameSite_eqb sameSite http.SameSiteNoneMode)
         ErrSameSiteNoneInsecure ;;
  let cookie :=
    http.Cookie.mk (Intent.Name i) (Intent.Value i) domain path
      expires maxAge secure (negb (Intent.RevealToJavaScript i)) sameSite in
  match Valid cookie with
  | Some msg => Err (ErrInvalidCookie msg)
  | None => Ok cookie
  end.

End Compiler.


(** ** The cookie container's validity check *)

Definition code (c : ascii) : N := N_of_ascii c.

Definition between (lo hi : N) (c : ascii) : bool :=
  ((lo <=? code c) && (code c <=? hi))%N.

Definition isLetter (c : ascii) : bool := between 97 122 c || between 65 90 c.
Definition isDigit (c : ascii) : bool := between 48 57 c.

Fixpoint allBytes (p : ascii -> bool) (s : string) : bool :=
  match s with
  | EmptyString => true
  | String c s' => p c && allBytes p s'
  end.

(** Token bytes: letters, digits and [!#$%&'*+-.^_`|~]. *)
Definition isTokenByte (c : ascii) : bool :=
  isLetter c || isDigit c
  || existsb (N.eqb (code c))
       [33; 35; 36; 37; 38; 39; 42; 43; 45; 46; 94; 95; 96; 124; 126]%N.

Definition isToken (s : string) : bool :=
  negb (s =? "")%string && allBytes isTokenByte s.

(** Printable ASCII other than the double quote, [;] and the backslash. *)
Definition validCookieValueByte (c : ascii) : bool :=
  between 32 126 c
  && negb (existsb (N.eqb (code c)) [34; 59; 92]%N).

(** Printable ASCII other than [;]. *)
Definition validCookiePathByte (c : ascii) : bool :=
  between 32 126 c && negb (code c =? 59)%N.

(** The scan of a domain name: the previous byte, whether a letter was
    seen, and the length of the current label. *)
Fixpoint scanDomain (s : string) (last : ascii) (ok : bool) (partlen : nat)
  : bool :=
  match s with
  | EmptyString =>
      negb (code last =? 45)%N && (partlen <=? 63)%nat && ok
  | String c s' =>
      if isLetter c then scanDomain s' c true (S partlen)
      else if isDigit c then scanDomain s' c ok (S partlen)
      else if (code c =? 45)%N then
        if (code last =? 46)%N then false
        else scanDomain s' c ok (S partlen)
      else if (code c =? 46)%N then
        if (code last =? 46)%N || (code last =? 45)%N then false
        else if (63 <? partlen)%nat || (partlen =? 0)%nat then false
        else scanDomain s' c ok 0
      else false
  end.

Definition isCookieDomainName (s : string) : bool :=
  match s with
  | EmptyString => false
  | String c s' =>
      (strings.len s <=? 255)%nat
      && scanDomain (if (code c =? 46)%N then s' else s) "." false 0
  end.

(** January 1, 1601 in seconds since January 1, year 1: 584388 days. *)
Definition validCookieExpires (t : time.Time) : bool :=
  584388 * 86400 <=? time.sec t.

(** Modelled from the spec: the validity check of the cookie container
    ([Cookie.Valid] of [net/http], which is outside this repository),
    described as "baseline legality validation (permitted characters in
    name/value, syntactic domain/path validity)".  In the manner of
    [net/http], the name is a non-empty token, the value and the path hold
    only permitted bytes, a non-empty domain is a sequence of non-empty
    labels of letters, digits and inner hyphens, and a timestamp, when
    set, is not before the year 1601.  [Compile] takes the check as a
    parameter; this model stands for it where a concrete one is
    needed. *)
Definition cookieValid (c : http.Cookie.t) : option string :=
  if negb (isToken (http.Cookie.Name c)) then
    Some "http: invalid Cookie.Name"
  else if negb (time.IsZero (http.Cookie.Expires c))
          && negb (validCookieExpires (http.Cookie.Expires c)) then
    Some "http: invalid Cookie.Expires"
  else if negb (allBytes validCookieValueByte (http.Cookie.Value c)) then
    Some "http: invalid byte in Cookie.Value"
  else if negb (allBytes validCookiePathByte (http.Cookie.Path c)) then
    Some "http: invalid byte in Cookie.Path"
  else if negb (http.Cookie.Domain c =? "")%string
          && negb (isCookieDomainName (http.Cookie.Domain c)) then
    Some "http: invalid Cookie.Domain"
  else None.

(** ** Properties of a scope triple, as the design document words them *)

(** The path prefix begins with [/]. *)
Definition beginsWithSlash (path : string) : bool :=
  strings.HasPrefix path "/".

(** The domain suffix has no leading dot. *)
Definition noLeadingDot (domain : string) : bool :=
  negb (strings.HasPrefix domain ".").

(** The domain suffix has no empty label between two dots. *)
Definition noEmptyLabel (domain : string) : bool :=
  negb (strings.Contains domain "..").

(** Empty, or a label sequence with no leading dot and no embedded empty
    label. *)
Definition wellFormedSuffix (domain : string) : bool :=
  (domain =? "")%string || (noLeadingDot domain && noEmptyLabel domain).


(** ** Locations of a fraction

    The rounding functions of [SpecFloat] carry a mantissa together with
    the location of the exact value between that mantissa and the next.
    The two predicates below say which fraction [A / D] a mantissa and its
    location stand for. *)

(** The record [mrs] locates the fraction [A / D]: its mantissa is the
    integer part, the round bit tells whether the rest reaches one half,
    the sticky bit whether the rest is neither zero nor one half. *)
Definition located (A D : Z) (mrs : shr_record) : Prop :=
  let m := shr_m mrs in
  0 <= m /\ m * D <= A < (m + 1) * D
  /\ (shr_r mrs = true <-> D <= 2 * (A - m * D))
  /\ (shr_s mrs = true <-> A - m * D <> 0 /\ 2 * (A - m * D) <> D).

(** The location [l] of [A / D] next to the mantissa [m]. *)
Definition loc_ok (A D m : Z) (l : location) : Prop :=
  0 <= m /\ m * D <= A < (m + 1) * D
  /\ match l with
     | loc_Exact => A = m * D
     | loc_Inexact c => A <> m * D /\ (2 * (A - m * D) ?= D) = c
     end.


(** * Properties *)

(** ** Strings *)

Lemma substring_0_0 (s : string) : String.substring 0 0 s = "".
Proof. destruct s; reflexivity. Qed.

(** Go's [HasPrefix] agrees with the structural prefix test. *)
Lemma HasPrefix_prefix (s p : string) :
  strings.HasPrefix s p = String.prefix p s.
Proof.
  unfold strings.HasPrefix, strings.slice, strings.len.
  revert s; induction p as [|a p IH]; intros s.
  - simpl. rewrite substring_0_0. destruct s; reflexivity.
  - destruct s as [|b s]; [reflexivity|].
    specialize (IH s). rewrite Nat.sub_0_r in IH |- *.
    cbn [String.length String.substring String.prefix Nat.leb String.eqb].
    destruct (ascii_dec a b) as [->|Hne].
    + rewrite Ascii.eqb_refl. exact IH.
    + destruct (Ascii.eqb_spec b a) as [->|_]; [congruence|].
      now rewrite andb_false_r.
Qed.

Lemma prefix_app (p s : string) :
  String.prefix p s = true -> exists r, s = p ++ r.
Proof.
  revert s; induction p as [|a p IH]; intros s H.
  - now exists s.
  - destruct s as [|b s]; [discriminate|]. simpl in H.
    destruct (ascii_dec a b) as [->|]; [|discriminate].
    destruct (IH _ H) as [r ->]. now exists r.
Qed.

Lemma HasPrefix_app (s p : string) :
  strings.HasPrefix s p = true -> exists r, s = p ++ r.
Proof. rewrite HasPrefix_prefix. apply prefix_app. Qed.

(** A name cannot carry both reserved prefixes. *)
Lemma Host_prefix_not_Secure (name : string) :
  strings.HasPrefix name "__Host-" = true ->
  strings.HasPrefix name "__Secure-" = false.
Proof.
  intros H. destruct (HasPrefix_app _ _ H) as [r ->].
  rewrite HasPrefix_prefix. reflexivity.
Qed.

Lemma substring_split (s : string) (n m : nat) :
  (n + m <= String.length s)%nat ->
  String.substring n (String.length s - n) s
  = String.substring n m s
    ++ String.substring (n + m) (String.length s - (n + m)) s.
Proof.
  revert n m; induction s as [|c s IH]; intros n m H; simpl in H.
  - destruct n, m; simpl in *; try lia; reflexivity.
  - destruct n as [|n].
    + destruct m as [|m].
      * reflexivity.
      * cbn [String.length Nat.sub String.substring Nat.add String.append].
        f_equal. specialize (IH 0%nat m).
        rewrite Nat.sub_0_r in IH. cbn [Nat.add] in IH. apply IH. lia.
    + cbn [String.length Nat.sub String.substring Nat.add].
      apply IH. lia.
Qed.

Lemma length_app (s t : string) :
  String.length (s ++ t) = (String.length s + String.length t)%nat.
Proof. induction s; simpl; congruence. Qed.

Lemma substring_all (s : string) :
  String.substring 0 (String.length s) s = s.
Proof. induction s; simpl; congruence. Qed.

Lemma index_bound (sep s : string) (n i : nat) :
  String.index n sep s = Some i ->
  (i + String.length sep <= String.length s)%nat.
Proof.
  revert n i; induction s as [|c s IH]; intros n i.
  - simpl. destruct n; [|discriminate]. destruct sep; [|discriminate].
    intros H; inversion H; simpl; lia.
  - cbn [String.index]. destruct n as [|n].
    + destruct (String.prefix sep (String c s)) eqn:Hp.
      * intros H; inversion H; subst i.
        apply prefix_app in Hp. destruct Hp as [r Hr]. rewrite Hr.
        rewrite length_app. lia.
      * destruct (String.index 0 sep s) as [k|] eqn:Hk; [|discriminate].
        intros H; inversion H; subst i. specialize (IH _ _ Hk). simpl. lia.
    + destruct (String.index n sep s) as [k|] eqn:Hk; [|discriminate].
      intros H; inversion H; subst i. specialize (IH _ _ Hk). simpl. lia.
Qed.

(** [Cut] splits [s] around one instance of [sep]. *)
Lemma Cut_true_inv (s sep before after : string) :
  strings.Cut s sep = (before, after, true) ->
  s = before ++ sep ++ after.
Proof.
  unfold strings.Cut, strings.Index, strings.slice, strings.len.
  destruct (String.index 0 sep s) as [i|] eqn:Hi; [|discriminate].
  intros H; inversion H; subst before after; clear H.
  pose proof (index_bound _ _ _ _ Hi) as Hb.
  pose proof (String.index_correct1 _ _ _ _ Hi) as Hsep.
  rewrite <- (substring_all s) at 1.
  rewrite Nat.sub_0_r.
  pose proof (substring_split s 0 i) as H0. rewrite Nat.sub_0_r in H0.
  cbn [Nat.add] in H0. rewrite H0 by lia.
  f_equal.
  rewrite (substring_split s i (String.length sep)) by lia.
  now rewrite Hsep.
Qed.

Lemma substring_after_app (p r : string) :
  String.substring (String.length p)
    (String.length (p ++ r) - String.length p) (p ++ r) = r.
Proof.
  induction p as [|c p IH]; simpl.
  - rewrite Nat.sub_0_r. apply substring_all.
  - exact IH.
Qed.

(** [TrimPrefix] removes exactly the prefix. *)
Lemma TrimPrefix_app (s p : string) :
  strings.HasPrefix s p = true -> s = p ++ strings.TrimPrefix s p.
Proof.
  intros H. unfold strings.TrimPrefix. rewrite H.
  destruct (HasPrefix_app _ _ H) as [r ->].
  unfold strings.slice, strings.len. now rewrite substring_after_app.
Qed.

(** [TrimSuffix] removes exactly the suffix. *)
Lemma TrimSuffix_app (s suffix : string) :
  strings.HasSuffix s suffix = true ->
  s = strings.TrimSuffix s suffix ++ suffix.
Proof.
  intros H. unfold strings.TrimSuffix. rewrite H.
  unfold strings.HasSuffix, strings.slice, strings.len in *.
  apply andb_true_iff in H. destruct H as [Hlen Heq].
  apply Nat.leb_le in Hlen. apply String.eqb_eq in Heq.
  rewrite Nat.sub_0_r.
  pose proof (substring_split s 0 (String.length s - String.length suffix))
    as Hs.
  rewrite Nat.sub_0_r, substring_all in Hs. cbn [Nat.add] in Hs.
  rewrite Hs at 1 by lia. now rewrite Heq.
Qed.

(** ** The result monad *)

Lemma bind_Ok_inv {A B : Type} (r : result A) (k : A -> result B) (b : B) :
  bind r k = Ok b -> exists a, r = Ok a /\ k a = Ok b.
Proof. destruct r as [a|e]; simpl; [eauto | discriminate]. Qed.

Lemma failIf_Ok_inv (c : bool) (e : error) (u : unit) :
  failIf c e = Ok u -> c = false.
Proof. destruct c; simpl; [discriminate | reflexivity]. Qed.

(** Splits a successful chain of binds and guards into its steps. *)
Ltac invert_steps :=
  repeat match goal with
    | H : bind _ _ = Ok _ |- _ =>
        let a := fresh "v" in
        let Ha := fresh "Hstep" in
        apply bind_Ok_inv in H; destruct H as (a & Ha & H)
    | H : failIf _ _ = Ok _ |- _ => apply failIf_Ok_inv in H
    | H : Ok _ = Ok _ |- _ => inversion H; subst; clear H
    | H : Err _ = Ok _ |- _ => discriminate H
    | H : negb _ = false |- _ => apply negb_false_iff in H
    end.

(** ** The scope parser *)

(** What an accepted pattern looks like: the steps of [parseReturnTo] on
    a non-empty [returnTo]. *)
Lemma parseReturnTo_Ok_inv (returnTo : string) (secure : bool)
    (domain path : string) :
  parseReturnTo returnTo = Ok (secure, domain, path) ->
  (returnTo = "" /\ secure = true /\ domain = "" /\ path = "/")
  \/ exists schema rest host rawpath,
       strings.Cut returnTo "://" = (schema, rest, true)
       /\ schemaSecure returnTo schema = Ok secure
       /\ strings.Cut rest "/" = (host, rawpath, true)
       /\ hostDomain returnTo host = Ok domain
       /\ strings.HasSuffix rawpath "**" = true
       /\ path = (if (strings.TrimSuffix rawpath "**" =? "")%string
                  then "/" else strings.TrimSuffix rawpath "**").
Proof.
  unfold parseReturnTo.
  destruct (String.eqb_spec returnTo "") as [->|_].
  - intros H; inversion H; auto.
  - destruct (strings.Cut returnTo "://") as [[schema rest] ok] eqn:Hcut.
    intros H. apply bind_Ok_inv in H. destruct H as (u & Hok & H).
    apply failIf_Ok_inv, negb_false_iff in Hok; subst ok.
    apply bind_Ok_inv in H. destruct H as (sec & Hsec & H).
    destruct (strings.Cut rest "/") as [[host rawpath] ok] eqn:Hcut'.
    invert_steps. subst ok.
    right. exists schema, rest, host, rawpath. auto 10.
Qed.

(** The host step yields the empty domain or one without a leading dot. *)
Lemma hostDomain_noLeadingDot (returnTo host domain : string) :
  hostDomain returnTo host = Ok domain -> noLeadingDot domain = true.
Proof.
  unfold hostDomain, noLeadingDot.
  destruct (host =? "<current>")%string.
  - intros H; inversion H; reflexivity.
  - intros H. invert_steps.
    match goal with
    | Hdot : strings.HasPrefix _ "." = false |- _ => now rewrite Hdot
    end.
Qed.

(** The host step keeps what follows the wildcard prefix. *)
Lemma hostDomain_Ok_inv (returnTo host domain : string) :
  hostDomain returnTo host = Ok domain ->
  (host = "<current>" /\ domain = "") \/ host = "**." ++ domain.
Proof.
  unfold hostDomain.
  destruct (String.eqb_spec host "<current>") as [->|_].
  - intros H; inversion H; auto.
  - intros H. invert_steps. right.
    match goal with
    | Hp : strings.HasPrefix host "**." = true |- _ =>
        exact (TrimPrefix_app _ _ Hp)
    end.
Qed.

(** The grammar of the accepted patterns: schema, "://", host, "/", a
    path prefix and the closing "**".  The returned path is the prefix,
    or "/" for the empty one; the "/" after the host is not part of it. *)
Lemma parseReturnTo_grammar (returnTo : string) (secure : bool)
    (domain path : string) :
  parseReturnTo returnTo = Ok (secure, domain, path) ->
  (returnTo = "" /\ secure = true /\ domain = "" /\ path = "/")
  \/ exists schema host prefix,
       returnTo = schema ++ "://" ++ host ++ "/" ++ prefix ++ "**"
       /\ ((schema = "https" /\ secure = true)
           \/ (schema = "https?" /\ secure = false))
       /\ ((host = "<current>" /\ domain = "") \/ host = "**." ++ domain)
       /\ path = (if (prefix =? "")%string then "/" else prefix).
Proof.
  intros H. apply parseReturnTo_Ok_inv in H.
  destruct H as [H|(schema & rest & host & raw & H)]; [now left | right].
  destruct H as (Hcut & Hschema & Hcut' & Hhost & Hsuffix & ->).
  exists schema, host, (strings.TrimSuffix raw "**").
  apply Cut_true_inv in Hcut, Hcut'.
  apply TrimSuffix_app in Hsuffix.
  apply hostDomain_Ok_inv in Hhost.
  repeat split; try assumption.
  - rewrite Hcut, Hcut'. now rewrite Hsuffix at 1.
  - unfold schemaSecure in Hschema.
    destruct (String.eqb_spec schema "https") as [->|_];
      [inversion Hschema; auto|].
    destruct (String.eqb_spec schema "https?") as [->|_];
      [inversion Hschema; auto | discriminate].
Qed.

(** The parser fails with one of its own six errors. *)
Lemma parseReturnTo_Err_inv (returnTo : string) (e : error) :
  parseReturnTo returnTo = Err e ->
  kind e = SyntaxError \/ kind e = SchemaError
  \/ kind e = DomainPatternError \/ kind e = PathPatternError.
Proof.
  unfold parseReturnTo, schemaSecure, hostDomain.
  destruct (returnTo =? "")%string; [discriminate|].
  destruct (strings.Cut returnTo "://") as [[schema rest] ok].
  destruct ok; cbn [negb failIf bind];
    [|intros H; inversion H; simpl; auto].
  destruct (schema =? "https")%string; [|destruct (schema =? "https?")%string];
    cbn [bind]; try (intros H; inversion H; simpl; now auto);
    destruct (strings.Cut rest "/") as [[host raw] ok];
    destruct ok; cbn [negb failIf bind];
    try (intros H; inversion H; simpl; now auto);
    destruct (host =? "<current>")%string; cbn [bind];
    repeat match goal with
      | |- context [failIf ?b _] => destruct b; cbn [failIf bind]
      end;
    intros H; inversion H; simpl; auto.
Qed.

(** ** Durations in seconds *)

(** Rounding keeps the sign it is given. *)
Lemma binary_round_aux_sign (mx ex : Z) (lx : location) :
  notPositive (binary_round_aux time.prec time.emax true mx ex lx).
Proof.
  unfold binary_round_aux.
  destruct (shr_fexp _ _ mx ex lx) as [mrs e'].
  destruct (shr_fexp _ _ _ e' loc_Exact) as [mrs' e''].
  destruct (shr_m mrs'); simpl; trivial.
  destruct (e'' <=? _); reflexivity.
Qed.

Lemma binary_round_sign (m : positive) (e : Z) :
  notPositive (binary_round time.prec time.emax true m e).
Proof.
  unfold binary_round.
  destruct (shl_align _ _ _) as [mz ez]. apply binary_round_aux_sign.
Qed.

Lemma float64_of_int_sign (n : Z) :
  n <= 0 -> notPositive (time.float64_of_int n).
Proof.
  unfold time.float64_of_int, binary_normalize.
  destruct n as [|p|p]; intros Hn; simpl; trivial; [lia|].
  apply binary_round_sign.
Qed.

Lemma SFdiv_sign (x : time.float64) (m : positive) (e : Z) :
  notPositive x ->
  notPositive (SFdiv time.prec time.emax x (S754_finite false m e)).
Proof.
  destruct x as [s|s| |s mx ex]; simpl; intros Hx; trivial.
  - now rewrite xorb_false_r.
  - subst s.
    destruct (SFdiv_core_binary _ _ _ _ _ _) as [[mz ez] lz].
    apply binary_round_aux_sign.
Qed.

Lemma SFadd_sign (x y : time.float64) :
  notPositive x -> notPositive y ->
  notPositive (SFadd time.prec time.emax x y).
Proof.
  destruct x as [sx|sx| |sx mx ex], y as [sy|sy| |sy my ey];
    simpl; intros Hx Hy; subst; trivial;
    try reflexivity; try (now destruct sx, sy).
  apply binary_round_sign.
Qed.

(** Go's truncated division and remainder keep the sign of the dividend. *)
Lemma quot_rem_Second_nonpos (d : time.Duration) :
  d <= 0 -> Z.quot d time.Second <= 0 /\ Z.rem d time.Second <= 0.
Proof.
  intros Hd. change time.Second with 1000000000.
  Z.to_euclidean_division_equations. lia.
Qed.

(** The seconds of a duration that is not positive are not positive. *)
Lemma Seconds_sign (d : time.Duration) :
  d <= 0 -> notPositive (time.Seconds d).
Proof.
  intros Hd. destruct (quot_rem_Second_nonpos d Hd) as [Hq Hr].
  unfold time.Seconds. apply SFadd_sign.
  - now apply float64_of_int_sign.
  - let v := eval vm_compute in (time.float64_of_int 1000000000) in
    change (time.float64_of_int 1000000000) with v.
    now apply SFdiv_sign, float64_of_int_sign.
Qed.

Lemma truncate_sign (f : time.float64) :
  notPositive f ->
  match truncate f with
  | Some z => z <= 0
  | None => True
  end.
Proof.
  destruct f as [s|s| |s m e]; unfold truncate, notPositive; intros Hf;
    trivial; [lia|].
  subst s. unfold cond_Zopp. apply Z.opp_nonpos_nonneg.
  destruct e as [|p|p].
  - lia.
  - apply Z.mul_nonneg_nonneg; [lia|]. apply Z.pow_nonneg. lia.
  - apply Z.div_pos; [lia|]. apply Z.pow_pos_nonneg; lia.
Qed.

(** [int(d.Seconds())] is not positive when [d] is not. *)
Lemma int_Seconds_nonpos (d : time.Duration) :
  d <= 0 -> int_of_float64 (time.Seconds d) <= 0.
Proof.
  intros Hd. unfold int_of_float64.
  pose proof (truncate_sign _ (Seconds_sign d Hd)) as Hz.
  destruct (truncate (time.Seconds d)) as [z|]; [|unfold minInt; lia].
  destruct (_ && _); [assumption | unfold minInt; lia].
Qed.

Example Seconds_one_day :
  int_of_float64 (time.Seconds (24 * time.Hour)) = 86400.
Proof. vm_compute. reflexivity. Qed.

Example Seconds_Immediately :
  int_of_float64 (time.Seconds (Expiration.After Immediately)) = -1.
Proof. vm_compute. reflexivity. Qed.

Example Seconds_half_second :
  int_of_float64 (time.Seconds (- 500 * time.Millisecond)) = 0.
Proof. vm_compute. reflexivity. Qed.

(** [Seconds] adds two floats, and the sum is rounded to the nearest
    binary64 before [int] discards the fraction: from [2 ^ 24] seconds on,
    a fraction of 999999999 nanoseconds rounds to the next whole second. *)
Example Seconds_rounds_to_nearest :
  int_of_float64 (time.Seconds (- (2 ^ 24 * time.Second + 999999999)))
  = - (2 ^ 24 + 1).
Proof. vm_compute. reflexivity. Qed.

(** ** The compiler *)

(** The outcomes of the expiration switch. *)
Lemma resolveExpiration_Ok_inv (e : Expiration.t) (expires : time.Time)
    (maxAge : Z) :
  resolveExpiration e = Ok (expires, maxAge) ->
  (time.IsZero (Expiration.At e) = false
   /\ expires = Expiration.At e /\ maxAge = 0)
  \/ (time.IsZero (Expiration.At e) = true /\ Expiration.After e <> 0
      /\ expires = time.zero
      /\ maxAge = int_of_float64 (time.Seconds (Expiration.After e)))
  \/ (time.IsZero (Expiration.At e) = true /\ Expiration.After e = 0
      /\ Expiration.Session e = true
      /\ expires = time.zero /\ maxAge = 0).
Proof.
  unfold resolveExpiration.
  destruct (time.IsZero (Expiration.At e)); simpl.
  - destruct (Z.eqb_spec (Expiration.After e) 0) as [Hz|Hnz]; simpl.
    + destruct (Expiration.Session e); intros H; inversion H; auto 10.
    + intros H; inversion H; auto 10.
  - intros H; inversion H; auto.
Qed.

(** The navigation switch fails on an unknown value only. *)
Lemma sameSiteMode_Err_inv (s : Source) (e : error) :
  sameSiteMode s = Err e -> e = ErrUnsupportedSource s.
Proof.
  unfold sameSiteMode.
  destruct (s =? SameSite)%string; [discriminate|].
  destruct ((s =? SameSiteOrAnySiteByUser)%string || (s =? "")%string);
    [discriminate|].
  destruct (s =? AnySite)%string; [discriminate|].
  intros H; inversion H; reflexivity.
Qed.

Section CompilerFacts.

Variable Valid : http.Cookie.t -> option string.

(** Every successful compilation went through all the steps. *)
Lemma Compile_Ok_inv (i : Intent.t) (c : http.Cookie.t) :
  Compile Valid i = Ok c ->
  exists secure domain path expires maxAge sameSite,
    (Expiration.After (Intent.Expires i) =? 0)
    || time.IsZero (Expiration.At (Intent.Expires i)) = true
    /\ parseReturnTo (Intent.ReturnTo i) = Ok (secure, domain, path)
    /\ resolveExpiration (Intent.Expires i) = Ok (expires, maxAge)
    /\ strings.HasPrefix (Intent.Name i) "__Secure-" && negb secure = false
    /\ strings.HasPrefix (Intent.Name i) "__Host-"
       && (negb secure || negb (domain =? "")%string
           || negb (path =? "/")%string) = false
    /\ sameSiteMode (Intent.ReturnOnNavigationFrom i) = Ok sameSite
    /\ negb secure && http.SameSite_eqb sameSite http.SameSiteNoneMode
       = false
    /\ c = http.Cookie.mk (Intent.Name i) (Intent.Value i) domain path
             expires maxAge secure (negb (Intent.RevealToJavaScript i))
             sameSite
    /\ Valid c = None.
Proof.
  unfold Compile. intros H.
  apply bind_Ok_inv in H. destruct H as (u & Hexcl & H).
  apply failIf_Ok_inv in Hexcl.
  apply bind_Ok_inv in H. destruct H as ([[secure domain] path] & Hscope & H).
  apply bind_Ok_inv in H. destruct H as ([expires maxAge] & Hexp & H).
  cbv beta iota in H.
  apply bind_Ok_inv in H. destruct H as (u1 & Hsec & H).
  apply failIf_Ok_inv in Hsec.
  apply bind_Ok_inv in H. destruct H as (u2 & Hhost & H).
  apply failIf_Ok_inv in Hhost.
  apply bind_Ok_inv in H. destruct H as (sameSite & Hmode & H).
  apply bind_Ok_inv in H. destruct H as (u3 & Hnone & H).
  apply failIf_Ok_inv in Hnone.
  destruct (Valid _) as [msg|] eqn:Hvalid; [discriminate|].
  inversion H; subst c; clear H.
  exists secure, domain, path, expires, maxAge, sameSite.
  rewrite <- negb_orb in Hexcl. apply negb_false_iff in Hexcl.
  repeat split; assumption.
Qed.

(** When every step passes, the compilation succeeds with the assembled
    cookie. *)
Lemma Compile_Ok_intro (i : Intent.t) (secure : bool) (domain path : string)
    (expires : time.Time) (maxAge : Z) (sameSite : http.SameSite) :
  (Expiration.After (Intent.Expires i) =? 0)
  || time.IsZero (Expiration.At (Intent.Expires i)) = true ->
  parseReturnTo (Intent.ReturnTo i) = Ok (secure, domain, path) ->
  resolveExpiration (Intent.Expires i) = Ok (expires, maxAge) ->
  strings.HasPrefix (Intent.Name i) "__Secure-" && negb secure = false ->
  strings.HasPrefix (Intent.Name i) "__Host-"
  && (negb secure || negb (domain =? "")%string
      || negb (path =? "/")%string) = false ->
  sameSiteMode (Intent.ReturnOnNavigationFrom i) = Ok sameSite ->
  negb secure && http.SameSite_eqb sameSite http.SameSiteNoneMode = false ->
  Valid (http.Cookie.mk (Intent.Name i) (Intent.Value i) domain path
           expires maxAge secure (negb (Intent.RevealToJavaScript i))
           sameSite) = None ->
  Compile Valid i
  = Ok (http.Cookie.mk (Intent.Name i) (Intent.Value i) domain path
          expires maxAge secure (negb (Intent.RevealToJavaScript i))
          sameSite).
Proof.
  intros Hexcl Hscope Hexp Hsec Hhost Hmode Hnone Hvalid.
  unfold Compile.
  rewrite <- negb_orb, Hexcl, Hscope, Hexp. cbn [negb failIf bind].
  rewrite Hsec. cbn [failIf bind]. rewrite Hhost. cbn [failIf bind].
  rewrite Hmode. cbn [bind]. rewrite Hnone. cbn [failIf bind].
  now rewrite Hvalid.
Qed.

End CompilerFacts.

(** ** The scope triple *)

(** The path of an accepted pattern is never empty. *)
Lemma parseReturnTo_path_nonempty (returnTo : string) (secure : bool)
    (domain path : string) :
  parseReturnTo returnTo = Ok (secure, domain, path) -> path <> "".
Proof.
  intros H. apply parseReturnTo_Ok_inv in H.
  destruct H as [(_ & _ & _ & ->)|(schema & rest & host & raw & H)];
    [discriminate|].
  destruct H as (_ & _ & _ & _ & _ & ->).
  destruct (String.eqb_spec (strings.TrimSuffix raw "**") "");
    [discriminate | assumption].
Qed.

(** C1: for every accepted ReturnTo pattern the path prefix of the scope
    triple should begin with "/".  The parser does not keep that promise:
    splitting at the first "/" drops the separator, so that
    "https://<current>/foo/**" is accepted with the path prefix "foo/",
    which does not begin with "/". *)
Theorem C1_path_prefix_loses_its_slash :
  parseReturnTo "https://<current>/foo/**" = Ok (true, "", "foo/")
  /\ beginsWithSlash "foo/" = false
  /\ ~ (forall returnTo secure domain path,
          parseReturnTo returnTo = Ok (secure, domain, path) ->
          beginsWithSlash path = true).
Proof.
  split; [reflexivity|]. split; [reflexivity|].
  intros H.
  specialize (H "https://<current>/foo/**" true "" "foo/" eq_refl).
  discriminate H.
Qed.

(** C10: the host pattern "**." with no label after the wildcard prefix is
    accepted; "https://**./**" yields the empty domain suffix, the same
    triple as "https://<current>/**", and no domain pattern error. *)
Theorem C10_bare_wildcard_host_is_current :
  parseReturnTo "https://**./**" = Ok (true, "", "/")
  /\ parseReturnTo "https://**./**" = parseReturnTo "https://<current>/**"
  /\ forall e, parseReturnTo "https://**./**" = Err e ->
               kind e <> DomainPatternError.
Proof.
  split; [reflexivity|]. split; [reflexivity|].
  intros e H. discriminate H.
Qed.

(** C3, as stated, fails: "https://**.a..b/**" is accepted with the domain
    suffix "a..b", which holds an empty label between its two dots. *)
Lemma C3_counterexample :
  parseReturnTo "https://**.a..b/**" = Ok (true, "a..b", "/")
  /\ strings.Contains "a..b" ".." = true
  /\ wellFormedSuffix "a..b" = false
  /\ ~ (forall returnTo secure domain path,
          parseReturnTo returnTo = Ok (secure, domain, path) ->
          wellFormedSuffix domain = true).
Proof.
  repeat (split; [reflexivity|]).
  intros H.
  specialize (H "https://**.a..b/**" true "a..b" "/" eq_refl).
  discriminate H.
Qed.

(** C3, amended: for every accepted ReturnTo pattern the returned domain
    suffix is either empty (the exact current host) or a string with no
    leading dot: it is empty for the empty pattern and for the host
    "<current>", and otherwise it is the text that follows "**." in the
    host.  The parser looks at nothing else in the suffix, so empty labels
    further on are not excluded. *)
Theorem C3_domain_suffix_no_leading_dot (returnTo : string) (secure : bool)
    (domain path : string) :
  parseReturnTo returnTo = Ok (secure, domain, path) ->
  noLeadingDot domain = true
  /\ (domain = "" \/ exists c rest, domain = String c rest /\ c <> "."%char)
  /\ ((returnTo = "" /\ domain = "")
      \/ exists schema host rawpath,
           returnTo = schema ++ "://" ++ host ++ "/" ++ rawpath
           /\ ((host = "<current>" /\ domain = "")
               \/ host = "**." ++ domain)).
Proof.
  intros H.
  assert (Hdot : noLeadingDot domain = true).
  { apply parseReturnTo_Ok_inv in H.
    destruct H as [(_ & _ & -> & _)|(schema & rest & host & raw & H)];
      [reflexivity|].
    destruct H as (_ & _ & _ & Hhost & _).
    exact (hostDomain_noLeadingDot _ _ _ Hhost). }
  split; [assumption|]. split.
  - destruct domain as [|c rest]; [now left | right].
    exists c, rest. split; [reflexivity|].
    intros ->. unfold noLeadingDot in Hdot.
    rewrite HasPrefix_prefix in Hdot. simpl in Hdot.
    destruct rest; discriminate Hdot.
  - apply parseReturnTo_grammar in H.
    destruct H as [(-> & _ & -> & _)|(schema & host & prefix & H)];
      [now left | right].
    destruct H as (-> & _ & Hhost & _).
    exists schema, host, (prefix ++ "**"). auto.
Qed.

Lemma C3_domain_suffix_no_leading_dot_witness :
  parseReturnTo "https://**.example.com/**" = Ok (true, "example.com", "/")
  /\ noLeadingDot "example.com" = true.
Proof.
  split; [reflexivity|].
  exact (proj1 (C3_domain_suffix_no_leading_dot
                  "https://**.example.com/**" true "example.com" "/"
                  eq_refl)).
Defined.

(** ** Expiration *)

Section Expiry.

Variable Valid : http.Cookie.t -> option string.

(** C7: an intent whose Expires has both an absolute timestamp and a
    non-zero relative duration fails with the conflicting-expiration
    error, whatever its other fields hold.  The check is the first step of
    [Compile]: the result does not depend on ReturnTo, so a pattern the
    scope parser rejects changes nothing. *)
Theorem C7_conflicting_expiration (i : Intent.t) :
  Expiration.After (Intent.Expires i) <> 0 ->
  time.IsZero (Expiration.At (Intent.Expires i)) = false ->
  Compile Valid i = Err ErrExclusiveExpiration
  /\ kind ErrExclusiveExpiration = ConflictingExpirationError
  /\ forall e, parseReturnTo (Intent.ReturnTo i) = Err e ->
               Compile Valid i <> Err e.
Proof.
  intros Hafter Hat.
  assert (H : Compile Valid i = Err ErrExclusiveExpiration).
  { unfold Compile. rewrite Hat.
    destruct (Z.eqb_spec (Expiration.After (Intent.Expires i)) 0);
      [contradiction | reflexivity]. }
  split; [assumption|]. split; [reflexivity|].
  intros e He. rewrite H. intros Heq. inversion Heq; subst e.
  apply parseReturnTo_Err_inv in He. simpl in He.
  destruct He as [He|[He|[He|He]]]; discriminate He.
Qed.

(** C9: a cookie returned by [Compile] never has both the absolute expiry
    and the max-age set: its timestamp is the zero time or its max-age is
    zero. *)
Theorem C9_expiry_fields_exclusive (i : Intent.t) (c : http.Cookie.t) :
  Compile Valid i = Ok c ->
  ~ (time.IsZero (http.Cookie.Expires c) = false
     /\ http.Cookie.MaxAge c <> 0).
Proof.
  intros H [Hexp Hage].
  apply Compile_Ok_inv in H.
  destruct H as (secure & domain & path & expires & maxAge & sameSite & H).
  destruct H as (_ & _ & Hres & _ & _ & _ & _ & -> & _).
  simpl in Hexp, Hage.
  apply resolveExpiration_Ok_inv in Hres.
  destruct Hres as [(_ & _ & ->)|[(_ & _ & -> & _)|(_ & _ & _ & -> & _)]];
    try contradiction; discriminate.
Qed.

(** C2, amended: an intent whose Expires has a relative duration of zero,
    no absolute timestamp and the session flag unset never compiles: a
    zero duration counts as unset.  The failure is the scope parser's
    when ReturnTo is rejected and the missing-expiration error
    otherwise. *)
Theorem C2_zero_duration_is_unset (i : Intent.t) :
  Expiration.After (Intent.Expires i) = 0 ->
  time.IsZero (Expiration.At (Intent.Expires i)) = true ->
  Expiration.Session (Intent.Expires i) = false ->
  (forall c, Compile Valid i <> Ok c)
  /\ (forall scope, parseReturnTo (Intent.ReturnTo i) = Ok scope ->
        Compile Valid i = Err ErrNoExpiration)
  /\ (forall e, parseReturnTo (Intent.ReturnTo i) = Err e ->
        Compile Valid i = Err e)
  /\ kind ErrNoExpiration = MissingExpirationError.
Proof.
  intros Hafter Hat Hsession.
  assert (Hres : resolveExpiration (Intent.Expires i) = Err ErrNoExpiration).
  { unfold resolveExpiration. now rewrite Hat, Hafter, Hsession. }
  assert (Hc : Compile Valid i
               = bind (parseReturnTo (Intent.ReturnTo i))
                   (fun _ => Err ErrNoExpiration)).
  { unfold Compile. rewrite Hat, Hafter, Hres. simpl.
    destruct (parseReturnTo _) as [[[s d] p]|e]; reflexivity. }
  rewrite Hc. repeat split.
  - intros c. destruct (parseReturnTo _); discriminate.
  - intros scope ->. reflexivity.
  - intros e ->. reflexivity.
Qed.

End Expiry.

(** C2, as stated, fails: the intent {Name: "test", Value: "value",
    Expires: After(0)} with every other field at its default has a zero
    relative duration, no timestamp and no session flag, and [Compile]
    rejects it with the missing-expiration error instead of returning a
    cookie with a max-age of zero. *)
Lemma C2_counterexample :
  Expiration.After (After 0) = 0
  /\ time.IsZero (Expiration.At (After 0)) = true
  /\ Expiration.Session (After 0) = false
  /\ Compile cookieValid (Intent.mk "test" "value" (After 0) "" "" false)
     = Err ErrNoExpiration
  /\ ~ (exists c,
          Compile cookieValid
            (Intent.mk "test" "value" (After 0) "" "" false) = Ok c
          /\ http.Cookie.MaxAge c = 0).
Proof.
  repeat (split; [reflexivity|]).
  intros (c & H & _). discriminate H.
Qed.

Lemma C2_zero_duration_is_unset_witness :
  Compile cookieValid (Intent.mk "test" "value" (After 0) "" "" false)
  = Err ErrNoExpiration.
Proof.
  exact (proj1 (proj2
           (C2_zero_duration_is_unset cookieValid
              (Intent.mk "test" "value" (After 0) "" "" false)
              eq_refl eq_refl eq_refl))
           (true, "", "/") eq_refl).
Defined.

Lemma C7_conflicting_expiration_witness :
  Compile cookieValid
    (Intent.mk "test" "value"
       (Expiration.mk false (time.mkTime 63713433600 0) (24 * time.Hour))
       "http:/**.example.com/**" "" false)
  = Err ErrExclusiveExpiration.
Proof.
  apply (C7_conflicting_expiration cookieValid); [discriminate | reflexivity].
Defined.

Lemma C9_expiry_fields_exclusive_witness :
  Compile cookieValid
    (Intent.mk "test" "value" (At (time.mkTime 63713433600 0)) "" "" false)
  = Ok (http.Cookie.mk "test" "value" "" "/" (time.mkTime 63713433600 0)
          0 true true http.SameSiteLaxMode)
  /\ ~ (time.IsZero (time.mkTime 63713433600 0) = false /\ 0 <> 0).
Proof.
  split; [reflexivity|].
  exact (C9_expiry_fields_exclusive cookieValid
           (Intent.mk "test" "value" (At (time.mkTime 63713433600 0))
              "" "" false)
           (http.Cookie.mk "test" "value" "" "/"
              (time.mkTime 63713433600 0) 0 true true http.SameSiteLaxMode)
           eq_refl).
Defined.

(** Runs [Compile] through its guards, one case for each outcome. *)
Ltac run_guards :=
  repeat match goal with
    | |- context [bind (failIf ?b _) _] => destruct b eqn:?; cbn [failIf bind]
    | |- context [bind (sameSiteMode ?s) _] =>
        destruct (sameSiteMode s) eqn:?; cbn [bind]
    | |- context [match ?V ?c with Some _ => _ | None => _ end] =>
        destruct (V c) eqn:?
    end.

(** ** The empty ReturnTo *)

(** C4: the empty ReturnTo resolves to the secure scope of the current
    host and the root path, without error, and the intent {Name: "test",
    Value: "value", Expires: After(24h)} with every other field at its
    default compiles to the cookie with Path "/", no Domain, Secure,
    HttpOnly, SameSite=Lax, MaxAge 86400 and no absolute expiry: every
    check of [Compile] passes, and the cookie is returned as soon as the
    cookie container accepts it, as the model of the container does. *)
Theorem C4_empty_ReturnTo :
  parseReturnTo "" = Ok (true, "", "/")
  /\ (forall Valid : http.Cookie.t -> option string,
        let c := http.Cookie.mk "test" "value" "" "/" time.zero 86400
                   true true http.SameSiteLaxMode in
        Valid c = None ->
        Compile Valid
          (Intent.mk "test" "value" (After (24 * time.Hour)) "" "" false)
        = Ok c
        /\ time.IsZero (http.Cookie.Expires c) = true)
  /\ Compile cookieValid
       (Intent.mk "test" "value" (After (24 * time.Hour)) "" "" false)
     = Ok (http.Cookie.mk "test" "value" "" "/" time.zero 86400
             true true http.SameSiteLaxMode).
Proof.
  split; [reflexivity|].
  assert (Hany : forall Valid : http.Cookie.t -> option string,
             Valid (http.Cookie.mk "test" "value" "" "/" time.zero 86400
                      true true http.SameSiteLaxMode) = None ->
             Compile Valid
               (Intent.mk "test" "value" (After (24 * time.Hour))
                  "" "" false)
             = Ok (http.Cookie.mk "test" "value" "" "/" time.zero 86400
                     true true http.SameSiteLaxMode)).
  { intros Valid Hvalid.
    apply (Compile_Ok_intro Valid
             (Intent.mk "test" "value" (After (24 * time.Hour)) "" "" false)
             true "" "/" time.zero 86400 http.SameSiteLaxMode);
      try (vm_compute; reflexivity).
    exact Hvalid. }
  split.
  - intros Valid c Hvalid. split; [exact (Hany Valid Hvalid) | reflexivity].
  - apply Hany. reflexivity.
Qed.

Lemma C4_empty_ReturnTo_witness :
  cookieValid (http.Cookie.mk "test" "value" "" "/" time.zero 86400
                 true true http.SameSiteLaxMode) = None
  /\ Compile cookieValid
       (Intent.mk "test" "value" (After (24 * time.Hour)) "" "" false)
     = Ok (http.Cookie.mk "test" "value" "" "/" time.zero 86400
             true true http.SameSiteLaxMode).
Proof.
  split; [reflexivity|].
  exact (proj1 (proj1 (proj2 C4_empty_ReturnTo) cookieValid eq_refl)).
Defined.

(** ** Name prefixes *)

Section NamePrefix.

Variable Valid : http.Cookie.t -> option string.

(** A [__Host-] name outside the scope of the current host: only the two
    expiration steps come before the prefix error. *)
Lemma Compile_Host_violation (i : Intent.t) (secure : bool)
    (domain path : string) :
  strings.HasPrefix (Intent.Name i) "__Host-" = true ->
  parseReturnTo (Intent.ReturnTo i) = Ok (secure, domain, path) ->
  ~ (secure = true /\ domain = "" /\ path = "/") ->
  Compile Valid i
  = (_ <- failIf (negb (Expiration.After (Intent.Expires i) =? 0)
                  && negb (time.IsZero (Expiration.At (Intent.Expires i))))
            ErrExclusiveExpiration ;;
     _ <- resolveExpiration (Intent.Expires i) ;;
     Err ErrHostPrefix).
Proof.
  intros Hname Hscope Hnot.
  assert (Hcheck : negb secure || negb (domain =? "")%string
                   || negb (path =? "/")%string = true).
  { destruct secure; [|reflexivity].
    destruct (String.eqb_spec domain ""); [|reflexivity].
    destruct (String.eqb_spec path "/"); [|reflexivity].
    exfalso. auto. }
  unfold Compile. rewrite Hscope. cbn [bind].
  destruct (failIf _ ErrExclusiveExpiration); cbn [bind]; [|reflexivity].
  destruct (resolveExpiration _) as [[expires maxAge]|e]; cbn [bind];
    [|reflexivity].
  now rewrite (Host_prefix_not_Secure _ Hname), Hname, Hcheck.
Qed.

(** C5, amended: for a name that starts with "__Host-" and a ReturnTo that
    the scope parser resolves to anything but the secure-only scope with
    an empty domain suffix and the path "/", [Compile] fails.  The two
    expiration steps come before the prefix check, so the error is the
    conflicting-expiration error when Expires sets both a timestamp and a
    non-zero duration, the missing-expiration error when it sets neither
    of them nor the session flag, and the prefix-constraint error in every
    other case.  In particular "https://**.example.com/**" and
    "https://<current>/foo/**" always fail for such a name.  With the
    scope of the current host no prefix-constraint error is raised. *)
Theorem C5_Host_prefix_scope (i : Intent.t) :
  strings.HasPrefix (Intent.Name i) "__Host-" = true ->
  (forall secure domain path,
      parseReturnTo (Intent.ReturnTo i) = Ok (secure, domain, path) ->
      ~ (secure = true /\ domain = "" /\ path = "/") ->
      (Compile Valid i = Err ErrHostPrefix
       \/ Compile Valid i = Err ErrExclusiveExpiration
       \/ Compile Valid i = Err ErrNoExpiration)
      /\ ((Expiration.After (Intent.Expires i) =? 0)
          || time.IsZero (Expiration.At (Intent.Expires i)) = true ->
          (exists r, resolveExpiration (Intent.Expires i) = Ok r) ->
          Compile Valid i = Err ErrHostPrefix)
      /\ (Expiration.After (Intent.Expires i) <> 0 ->
          time.IsZero (Expiration.At (Intent.Expires i)) = false ->
          Compile Valid i = Err ErrExclusiveExpiration)
      /\ (Expiration.After (Intent.Expires i) = 0 ->
          time.IsZero (Expiration.At (Intent.Expires i)) = true ->
          Expiration.Session (Intent.Expires i) = false ->
          Compile Valid i = Err ErrNoExpiration)
      /\ (Expiration.After (Intent.Expires i) = 0
          \/ time.IsZero (Expiration.At (Intent.Expires i)) = true ->
          Expiration.After (Intent.Expires i) <> 0
          \/ time.IsZero (Expiration.At (Intent.Expires i)) = false
          \/ Expiration.Session (Intent.Expires i) = true ->
          Compile Valid i = Err ErrHostPrefix))
  /\ (Intent.ReturnTo i = "https://**.example.com/**"
      \/ Intent.ReturnTo i = "https://<current>/foo/**" ->
      exists e, Compile Valid i = Err e)
  /\ (parseReturnTo (Intent.ReturnTo i) = Ok (true, "", "/") ->
      forall e, Compile Valid i = Err e ->
                kind e <> PrefixConstraintError)
  /\ kind ErrHostPrefix = PrefixConstraintError
  /\ kind ErrExclusiveExpiration = ConflictingExpirationError
  /\ kind ErrNoExpiration = MissingExpirationError.
Proof.
  intros Hname.
  assert (Hgen : forall secure domain path,
             parseReturnTo (Intent.ReturnTo i) = Ok (secure, domain, path) ->
             ~ (secure = true /\ domain = "" /\ path = "/") ->
             (Compile Valid i = Err ErrHostPrefix
              \/ Compile Valid i = Err ErrExclusiveExpiration
              \/ Compile Valid i = Err ErrNoExpiration)
             /\ ((Expiration.After (Intent.Expires i) =? 0)
                 || time.IsZero (Expiration.At (Intent.Expires i)) = true ->
                 (exists r, resolveExpiration (Intent.Expires i) = Ok r) ->
                 Compile Valid i = Err ErrHostPrefix)
             /\ (Expiration.After (Intent.Expires i) <> 0 ->
                 time.IsZero (Expiration.At (Intent.Expires i)) = false ->
                 Compile Valid i = Err ErrExclusiveExpiration)
             /\ (Expiration.After (Intent.Expires i) = 0 ->
                 time.IsZero (Expiration.At (Intent.Expires i)) = true ->
                 Expiration.Session (Intent.Expires i) = false ->
                 Compile Valid i = Err ErrNoExpiration)
             /\ (Expiration.After (Intent.Expires i) = 0
                 \/ time.IsZero (Expiration.At (Intent.Expires i)) = true ->
                 Expiration.After (Intent.Expires i) <> 0
                 \/ time.IsZero (Expiration.At (Intent.Expires i)) = false
                 \/ Expiration.Session (Intent.Expires i) = true ->
                 Compile Valid i = Err ErrHostPrefix)).
  { intros secure domain path Hscope Hnot.
    rewrite (Compile_Host_violation i secure domain path Hname Hscope Hnot).
    split; [|split].
    - destruct (negb _ && negb _); cbn [failIf bind]; [auto|].
      unfold resolveExpiration.
      destruct (negb (time.IsZero _)); [auto|].
      destruct (negb (_ =? 0)); [auto|].
      destruct (Expiration.Session _); auto.
    - intros Hexcl [r Hres].
      rewrite <- negb_orb, Hexcl, Hres. reflexivity.
    - unfold resolveExpiration.
      destruct (Z.eqb_spec (Expiration.After (Intent.Expires i)) 0)
        as [Ha|Ha];
        destruct (time.IsZero (Expiration.At (Intent.Expires i)));
        destruct (Expiration.Session (Intent.Expires i));
        cbn [negb andb failIf bind];
        (split; [|split]);
        try reflexivity; try (intros; reflexivity);
        try (intros; contradiction); try (intros; discriminate);
        intros [H|H] [H1|[H1|H1]];
        try reflexivity; try contradiction; discriminate. }
  split; [exact Hgen|].
  split; [|split; [|repeat split; reflexivity]].
  - intros [Hr|Hr].
    + destruct (Hgen true "example.com" "/") as [[H|[H|H]] _];
        try (rewrite Hr; reflexivity); eauto.
      intros (_ & Hd & _); discriminate Hd.
    + destruct (Hgen true "" "foo/") as [[H|[H|H]] _];
        try (rewrite Hr; reflexivity); eauto.
      intros (_ & _ & Hp); discriminate Hp.
  - intros Hscope e. unfold Compile. rewrite Hscope. cbn [bind].
    destruct (negb _ && negb _); cbn [failIf bind];
      [intros H; inversion H; discriminate|].
    destruct (resolveExpiration _) as [[expires maxAge]|e'] eqn:Hres;
      cbn [bind].
    + change (("" =? "")%string) with true.
      change (("/" =? "/")%string) with true.
      cbn [negb orb]. rewrite !andb_false_r. cbn [failIf bind].
      run_guards; intros H; inversion H; subst;
        try match goal with
          | Hmode : sameSiteMode _ = Err _ |- _ =>
              apply sameSiteMode_Err_inv in Hmode; subst
          end; discriminate.
    + intros H; inversion H; subst e'.
      unfold resolveExpiration in Hres.
      destruct (negb (time.IsZero _)); [discriminate|].
      destruct (negb (_ =? 0)); [discriminate|].
      destruct (Expiration.Session _); [discriminate|].
      inversion Hres. discriminate.
Qed.

End NamePrefix.

(** C5, as stated, fails: the intent {Name: "__Host-test", Value: "value",
    ReturnTo: "https://**.example.com/**"} with no expiration at all has a
    "__Host-" name and a scope with a domain suffix, and [Compile] rejects
    it with the missing-expiration error, raised before the name is looked
    at, instead of a prefix-constraint error. *)
Lemma C5_counterexample :
  strings.HasPrefix "__Host-test" "__Host-" = true
  /\ parseReturnTo "https://**.example.com/**"
     = Ok (true, "example.com", "/")
  /\ Compile cookieValid
       (Intent.mk "__Host-test" "value" (Expiration.mk false time.zero 0)
          "https://**.example.com/**" "" false)
     = Err ErrNoExpiration
  /\ kind ErrNoExpiration <> PrefixConstraintError
  /\ ~ (forall i : Intent.t,
          strings.HasPrefix (Intent.Name i) "__Host-" = true ->
          parseReturnTo (Intent.ReturnTo i) <> Ok (true, "", "/") ->
          exists e, Compile cookieValid i = Err e
                    /\ kind e = PrefixConstraintError).
Proof.
  repeat (split; [reflexivity|]).
  split; [discriminate|].
  intros H.
  destruct (H (Intent.mk "__Host-test" "value"
                 (Expiration.mk false time.zero 0)
                 "https://**.example.com/**" "" false) eq_refl)
    as (e & He & Hk); [discriminate|].
  inversion He; subst e. discriminate Hk.
Qed.

Lemma C5_Host_prefix_scope_witness :
  Compile cookieValid
    (Intent.mk "__Host-test" "value" (After (24 * time.Hour))
       "https://**.example.com/**" "" false)
  = Err ErrHostPrefix
  /\ Compile cookieValid
       (Intent.mk "__Host-test" "value" (Expiration.mk false time.zero 0)
          "https://<current>/foo/**" "" false)
     = Err ErrNoExpiration.
Proof.
  split.
  - refine (proj2 (proj2 (proj2 (proj2 (proj1
              (C5_Host_prefix_scope cookieValid
                 (Intent.mk "__Host-test" "value" (After (24 * time.Hour))
                    "https://**.example.com/**" "" false)
                 eq_refl)
              true "example.com" "/" eq_refl _))))
              (or_intror eq_refl) (or_introl _)).
    + intros (_ & H & _). discriminate H.
    + discriminate.
  - refine (proj1 (proj2 (proj2 (proj2 (proj1
              (C5_Host_prefix_scope cookieValid
                 (Intent.mk "__Host-test" "value"
                    (Expiration.mk false time.zero 0)
                    "https://<current>/foo/**" "" false)
                 eq_refl)
              true "" "foo/" eq_refl _))))
              eq_refl eq_refl eq_refl).
    intros (_ & _ & H). discriminate H.
Defined.

(** ** Navigation policy *)

(** The navigation switch, value by value. *)
Lemma sameSiteMode_table :
  sameSiteMode SameSite = Ok http.SameSiteStrictMode
  /\ sameSiteMode SameSiteOrAnySiteByUser = Ok http.SameSiteLaxMode
  /\ sameSiteMode "" = Ok http.SameSiteLaxMode
  /\ sameSiteMode AnySite = Ok http.SameSiteNoneMode
  /\ forall v : Source,
       v <> SameSite -> v <> SameSiteOrAnySiteByUser -> v <> "" ->
       v <> AnySite ->
       sameSiteMode v = Err (ErrUnsupportedSource v).
Proof.
  repeat (split; [reflexivity|]).
  intros v H1 H2 H3 H4. unfold sameSiteMode.
  apply String.eqb_neq in H1, H2, H3, H4.
  now rewrite H1, H2, H3, H4.
Qed.

Section NavigationPolicy.

Variable Valid : http.Cookie.t -> option string.

(** Once the expiration, the scope and the name prefix have passed, what
    is left of [Compile] is the navigation switch, the SameSite=None
    guard and the cookie container's check. *)
Lemma Compile_from_navigation (i : Intent.t) (secure : bool)
    (domain path : string) (expires : time.Time) (maxAge : Z) :
  (Expiration.After (Intent.Expires i) =? 0)
  || time.IsZero (Expiration.At (Intent.Expires i)) = true ->
  parseReturnTo (Intent.ReturnTo i) = Ok (secure, domain, path) ->
  resolveExpiration (Intent.Expires i) = Ok (expires, maxAge) ->
  strings.HasPrefix (Intent.Name i) "__Secure-" && negb secure = false ->
  strings.HasPrefix (Intent.Name i) "__Host-"
  && (negb secure || negb (domain =? "")%string
      || negb (path =? "/")%string) = false ->
  Compile Valid i
  = (sameSite <- sameSiteMode (Intent.ReturnOnNavigationFrom i) ;;
     _ <- failIf (negb secure
                  && http.SameSite_eqb sameSite http.SameSiteNoneMode)
            ErrSameSiteNoneInsecure ;;
     let cookie :=
       http.Cookie.mk (Intent.Name i) (Intent.Value i) domain path
         expires maxAge secure (negb (Intent.RevealToJavaScript i))
         sameSite in
     match Valid cookie with
     | Some msg => Err (ErrInvalidCookie msg)
     | None => Ok cookie
     end).
Proof.
  intros Hexcl Hscope Hexp Hsec Hhost. unfold Compile.
  rewrite <- negb_orb, Hexcl, Hscope, Hexp. cbn [negb failIf bind].
  rewrite Hsec. cbn [failIf bind]. rewrite Hhost. reflexivity.
Qed.


End NavigationPolicy.



(** ** The test table of cookies_test.go

    [Compile] on the intents of the repository's tests, with the model of
    the cookie container.  [testTime] is January 1, 2020, 00:00:00 UTC:
    737424 days after January 1 of the year 1. *)

Example test_basic_cookie :
  Compile cookieValid
    (Intent.mk "test" "value" (After (24 * time.Hour)) "" "" false)
  = Ok (http.Cookie.mk "test" "value" "" "/" time.zero 86400 true true
          http.SameSiteLaxMode).
Proof. vm_compute. reflexivity. Qed.

Example test_cookie_with_expiration_time :
  Compile cookieValid
    (Intent.mk "test" "value" (At (time.mkTime (737424 * 86400) 0))
       "" "" false)
  = Ok (http.Cookie.mk "test" "value" "" "/"
          (time.mkTime (737424 * 86400) 0) 0 true true
          http.SameSiteLaxMode).
Proof. vm_compute. reflexivity. Qed.

Example test_cookie_revealed_to_JavaScript :
  Compile cookieValid
    (Intent.mk "test" "value" (After (24 * time.Hour)) "" "" true)
  = Ok (http.Cookie.mk "test" "value" "" "/" time.zero 86400 true false
          http.SameSiteLaxMode).
Proof. vm_compute. reflexivity. Qed.

Example test_Host_prefixed_cookie :
  Compile cookieValid
    (Intent.mk "__Host-test" "value" (After (24 * time.Hour)) "" "" false)
  = Ok (http.Cookie.mk "__Host-test" "value" "" "/" time.zero 86400 true
          true http.SameSiteLaxMode).
Proof. vm_compute. reflexivity. Qed.

Example test_Secure_prefixed_cookie :
  Compile cookieValid
    (Intent.mk "__Secure-test" "value" (After (24 * time.Hour)) "" "" false)
  = Ok (http.Cookie.mk "__Secure-test" "value" "" "/" time.zero 86400 true
          true http.SameSiteLaxMode).
Proof. vm_compute. reflexivity. Qed.

Example test_strict_same_site :
  Compile cookieValid
    (Intent.mk "test" "value" (After (24 * time.Hour)) "" SameSite false)
  = Ok (http.Cookie.mk "test" "value" "" "/" time.zero 86400 true true
          http.SameSiteStrictMode).
Proof. vm_compute. reflexivity. Qed.

Example test_any_site_navigation :
  Compile cookieValid
    (Intent.mk "test" "value" (After (24 * time.Hour)) "" AnySite false)
  = Ok (http.Cookie.mk "test" "value" "" "/" time.zero 86400 true true
          http.SameSiteNoneMode).
Proof. vm_compute. reflexivity. Qed.

Example test_session_cookie :
  Compile cookieValid
    (Intent.mk "session-cookie" "value" WhenUAIsClosed "" "" false)
  = Ok (http.Cookie.mk "session-cookie" "value" "" "/" time.zero 0 true
          true http.SameSiteLaxMode).
Proof. vm_compute. reflexivity. Qed.

(** The duration of [Immediately] is minus one second, and so is the
    max-age.  The test table of the repository lists a max-age of 0 for
    this intent; [Compile] returns -1. *)
Example test_immediate_expiration :
  Compile cookieValid
    (Intent.mk "expired-cookie" "value" Immediately "" "" false)
  = Ok (http.Cookie.mk "expired-cookie" "value" "" "/" time.zero (-1) true
          true http.SameSiteLaxMode).
Proof. vm_compute. reflexivity. Qed.

Example test_conflicting_expiration :
  Compile cookieValid
    (Intent.mk "test" "value"
       (Expiration.mk false (time.mkTime (737424 * 86400) 0)
          (24 * time.Hour))
       "" "" false)
  = Err ErrExclusiveExpiration.
Proof. vm_compute. reflexivity. Qed.

Example test_missing_expiration :
  Compile cookieValid
    (Intent.mk "test" "value" (Expiration.mk false time.zero 0) "" "" false)
  = Err ErrNoExpiration.
Proof. vm_compute. reflexivity. Qed.

Example test_Host_with_domain :
  Compile cookieValid
    (Intent.mk "__Host-test" "value" (After (24 * time.Hour))
       "https://**.example.com/**" "" false)
  = Err ErrHostPrefix.
Proof. vm_compute. reflexivity. Qed.

Example test_Host_with_non_root_path :
  Compile cookieValid
    (Intent.mk "__Host-test" "value" (After (24 * time.Hour))
       "https://<current>/foo/**" "" false)
  = Err ErrHostPrefix.
Proof. vm_compute. reflexivity. Qed.

Example test_Secure_with_insecure :
  Compile cookieValid
    (Intent.mk "__Secure-test" "value" (After (24 * time.Hour))
       "https?://<current>/**" "" false)
  = Err ErrSecurePrefix.
Proof. vm_compute. reflexivity. Qed.

Example test_SameSite_None_with_insecure :
  Compile cookieValid
    (Intent.mk "test" "value" (After (24 * time.Hour))
       "https?://<current>/**" AnySite false)
  = Err ErrSameSiteNoneInsecure.
Proof. vm_compute. reflexivity. Qed.

Example test_invalid_ReturnOnNavigationFrom :
  Compile cookieValid
    (Intent.mk "test" "value" (After (24 * time.Hour)) "" "invalid" false)
  = Err (ErrUnsupportedSource "invalid").
Proof. vm_compute. reflexivity. Qed.

(** The value of this test is a two-byte UTF-8 sequence. *)
Example test_invalid_cookie_value :
  Compile cookieValid
    (Intent.mk "test"
       (String (ascii_of_nat 209) (String (ascii_of_nat 137) ""))
       (After (24 * time.Hour)) "" "" false)
  = Err (ErrInvalidCookie "http: invalid byte in Cookie.Value").
Proof. vm_compute. reflexivity. Qed.

Example test_ReturnTo_wrong_syntax :
  parseReturnTo "http:/**.example.com/**"
  = Err (ErrNoSchemaSeparator "http:/**.example.com/**").
Proof. reflexivity. Qed.

Example test_ReturnTo_invalid_schema :
  parseReturnTo "http://**.example.com/**"
  = Err (ErrSchema "http://**.example.com/**").
Proof. reflexivity. Qed.

Example test_ReturnTo_missing_path_separator :
  parseReturnTo "https://example.com"
  = Err (ErrNoPathSeparator "https://example.com").
Proof. reflexivity. Qed.

Example test_ReturnTo_explicit_domain :
  parseReturnTo "https://example.com/**"
  = Err (ErrExplicitDomain "https://example.com/**").
Proof. reflexivity. Qed.

(** The scope parser accepts this pattern; the cookie container rejects
    the domain it yields. *)
Example test_ReturnTo_invalid_domain_format :
  parseReturnTo "https://**.example.com.**/**"
  = Ok (true, "example.com.**", "/")
  /\ Compile cookieValid
       (Intent.mk "test" "value" (After (24 * time.Hour))
          "https://**.example.com.**/**" "" false)
     = Err (ErrInvalidCookie "http: invalid Cookie.Domain").
Proof. split; vm_compute; reflexivity. Qed.

Example test_ReturnTo_path_without_suffix :
  parseReturnTo "https://<current>/foo"
  = Err (ErrPathPattern "https://<current>/foo").
Proof. reflexivity. Qed.

Example test_ReturnTo_double_dot :
  parseReturnTo "https://**..example.com/**" = Err ErrDoubleDotDomain.
Proof. reflexivity. Qed.

(** A path pattern below the root reaches the cookie without its leading
    slash. *)
Example Compile_path_below_root :
  Compile cookieValid
    (Intent.mk "test" "value" (After (24 * time.Hour))
       "https://<current>/foo/**" "" false)
  = Ok (http.Cookie.mk "test" "value" "" "foo/" time.zero 86400 true true
          http.SameSiteLaxMode).
Proof. vm_compute. reflexivity. Qed.


(** * Further properties of the package *)

(** ** More on strings *)

Lemma prefix_nil (s : string) : String.prefix "" s = true.
Proof. destruct s; reflexivity. Qed.

Lemma substring_before_app (p x : string) :
  String.substring 0 (String.length p) (p ++ x) = p.
Proof.
  induction p as [|c p IH]; simpl.
  - apply substring_0_0.
  - now rewrite IH.
Qed.

Lemma app_assoc_string (a b c : string) : (a ++ b) ++ c = a ++ b ++ c.
Proof. induction a; simpl; congruence. Qed.

(** Where [sep] first occurs right after [p], [Cut] returns the two
    sides. *)
Lemma Cut_at (p sep r : string) :
  strings.Index (p ++ sep ++ r) sep = Some (String.length p) ->
  strings.Cut (p ++ sep ++ r) sep = (p, r, true).
Proof.
  intros H. unfold strings.Cut. rewrite H.
  unfold strings.slice, strings.len.
  rewrite Nat.sub_0_r, substring_before_app.
  rewrite <- app_assoc_string, <- length_app.
  now rewrite substring_after_app.
Qed.

(** A one-byte separator: the text before its first instance does not
    hold it. *)
Lemma Index_byte_before (c : ascii) (s : string) (i : nat) :
  strings.Index s (String c "") = Some i ->
  strings.Index (String.substring 0 i s) (String c "") = None.
Proof.
  unfold strings.Index. revert i; induction s as [|b s IH]; intros i.
  - discriminate.
  - cbn [String.index String.prefix].
    destruct (ascii_dec c b) as [->|Hne].
    + rewrite prefix_nil. intros H; inversion H. reflexivity.
    + destruct (String.index 0 (String c "") s) as [k|] eqn:Hk;
        [|discriminate].
      intros H; inversion H; subst i.
      cbn [String.substring String.index String.prefix].
      destruct (ascii_dec c b); [contradiction|].
      now rewrite (IH k eq_refl).
Qed.

Lemma Index_byte_app (c : ascii) (p r : string) :
  strings.Index p (String c "") = None ->
  strings.Index (p ++ String c r) (String c "") = Some (String.length p).
Proof.
  unfold strings.Index. induction p as [|b p IH].
  - intros _. cbn [String.append String.index String.prefix].
    destruct (ascii_dec c c); [|contradiction]. now rewrite prefix_nil.
  - cbn [String.append String.index String.prefix String.length].
    destruct (ascii_dec c b) as [->|Hne].
    + now rewrite prefix_nil.
    + destruct (String.index 0 (String c "") p) as [k|] eqn:Hk;
        [discriminate|].
      intros _. now rewrite (IH eq_refl).
Qed.

Lemma Cut_byte_before (c : ascii) (s before after : string) :
  strings.Cut s (String c "") = (before, after, true) ->
  strings.Contains before (String c "") = false.
Proof.
  unfold strings.Cut, strings.Contains.
  destruct (strings.Index s (String c "")) as [i|] eqn:Hi; [|discriminate].
  intros H; inversion H; subst.
  unfold strings.slice. rewrite Nat.sub_0_r.
  now rewrite (Index_byte_before _ _ _ Hi).
Qed.

Lemma Cut_byte_app (c : ascii) (p r : string) :
  strings.Contains p (String c "") = false ->
  strings.Cut (p ++ String c r) (String c "") = (p, r, true).
Proof.
  unfold strings.Contains. intros H.
  destruct (strings.Index p (String c "")) eqn:Hi; [discriminate|].
  apply (Cut_at p (String c "") r). now apply Index_byte_app.
Qed.

Lemma HasSuffix_app (p suffix : string) :
  strings.HasSuffix (p ++ suffix) suffix = true.
Proof.
  unfold strings.HasSuffix, strings.slice, strings.len.
  rewrite length_app.
  replace (String.length p + String.length suffix - String.length suffix)%nat
    with (String.length p) by lia.
  replace (String.length p + String.length suffix - String.length p)%nat
    with (String.length (p ++ suffix) - String.length p)%nat
    by (rewrite length_app; lia).
  rewrite substring_after_app, String.eqb_refl.
  apply andb_true_iff. split; [apply Nat.leb_le; lia | reflexivity].
Qed.

Lemma TrimSuffix_app_eq (p suffix : string) :
  strings.TrimSuffix (p ++ suffix) suffix = p.
Proof.
  unfold strings.TrimSuffix. rewrite HasSuffix_app.
  unfold strings.slice, strings.len. rewrite length_app.
  replace (String.length p + String.length suffix - String.length suffix - 0)%nat
    with (String.length p) by lia.
  apply substring_before_app.
Qed.

Lemma HasPrefix_app_eq (p r : string) : strings.HasPrefix (p ++ r) p = true.
Proof.
  rewrite HasPrefix_prefix. induction p as [|c p IH]; simpl.
  - apply prefix_nil.
  - destruct (ascii_dec c c); [assumption | contradiction].
Qed.

Lemma TrimPrefix_app_eq (p r : string) : strings.TrimPrefix (p ++ r) p = r.
Proof.
  unfold strings.TrimPrefix. rewrite HasPrefix_app_eq.
  unfold strings.slice, strings.len. apply substring_after_app.
Qed.

(** ** The language of the scope parser *)

(** Every accepted pattern is the empty one or has the shape
    schema "://" host "/" prefix "**". *)
Lemma parseReturnTo_shape (returnTo : string) (secure : bool)
    (domain path : string) :
  parseReturnTo returnTo = Ok (secure, domain, path) ->
  (returnTo = "" /\ secure = true /\ domain = "" /\ path = "/")
  \/ exists schema host prefix,
       returnTo = schema ++ "://" ++ host ++ "/" ++ prefix ++ "**"
       /\ ((schema = "https" /\ secure = true)
           \/ (schema = "https?" /\ secure = false))
       /\ strings.Contains host "/" = false
       /\ ((host = "<current>" /\ domain = "")
           \/ (host = "**." ++ domain
               /\ strings.HasPrefix domain "." = false))
       /\ path = (if (prefix =? "")%string then "/" else prefix).
Proof.
  intros H. apply parseReturnTo_Ok_inv in H.
  destruct H as [H|(schema & rest & host & raw & H)]; [now left | right].
  destruct H as (Hcut & Hs & Hcut' & Hdom & Hsuf & ->).
  pose proof (Cut_byte_before _ _ _ _ Hcut') as Hslash.
  pose proof (hostDomain_noLeadingDot _ _ _ Hdom) as Hdot.
  apply negb_true_iff in Hdot.
  apply hostDomain_Ok_inv in Hdom.
  apply Cut_true_inv in Hcut, Hcut'. apply TrimSuffix_app in Hsuf.
  exists schema, host, (strings.TrimSuffix raw "**").
  repeat split; try assumption.
  - rewrite Hcut, Hcut'. now rewrite Hsuf at 1.
  - unfold schemaSecure in Hs.
    destruct (String.eqb_spec schema "https") as [->|_];
      [inversion Hs; auto|].
    destruct (String.eqb_spec schema "https?") as [->|_];
      [inversion Hs; auto | discriminate].
  - destruct Hdom as [[-> ->]|Hh]; [now left | right; now split].
Qed.

(** Conversely, every string of that shape is accepted, with the triple
    the shape describes. *)
Lemma parseReturnTo_accepts_shape (schema host prefix : string)
    (secure : bool) (domain : string) :
  (schema = "https" /\ secure = true)
  \/ (schema = "https?" /\ secure = false) ->
  strings.Contains host "/" = false ->
  (host = "<current>" /\ domain = "")
  \/ (host = "**." ++ domain /\ strings.HasPrefix domain "." = false) ->
  parseReturnTo (schema ++ "://" ++ host ++ "/" ++ prefix ++ "**")
  = Ok (secure, domain, if (prefix =? "")%string then "/" else prefix).
Proof.
  intros Hschema Hslash Hhost.
  set (rest := host ++ "/" ++ prefix ++ "**").
  assert (Hcut : strings.Cut (schema ++ "://" ++ rest) "://"
                 = (schema, rest, true)).
  { apply Cut_at. unfold strings.Index.
    destruct Hschema as [[-> _]|[-> _]];
      cbn [String.append String.index String.prefix];
      repeat match goal with
        | |- context [ascii_dec ?a ?b] =>
            let d := eval vm_compute in (ascii_dec a b) in
            change (ascii_dec a b) with d; cbv beta iota
        end;
      now rewrite prefix_nil. }
  assert (Hcut' : strings.Cut rest "/" = (host, prefix ++ "**", true))
    by (apply (Cut_byte_app "/"%char host (prefix ++ "**") Hslash)).
  assert (Hdom : hostDomain (schema ++ "://" ++ rest) host = Ok domain).
  { unfold hostDomain. destruct Hhost as [[-> ->]|[-> Hdot]];
      [reflexivity|].
    change (("**." ++ domain =? "<current>")%string) with false.
    rewrite HasPrefix_app_eq, TrimPrefix_app_eq. cbn [negb failIf bind].
    now rewrite Hdot. }
  unfold parseReturnTo. rewrite Hcut. cbn [negb failIf bind].
  replace ((schema ++ "://" ++ rest =? "")%string) with false
    by (destruct Hschema as [[-> _]|[-> _]]; reflexivity).
  replace (schemaSecure (schema ++ "://" ++ rest) schema) with (Ok secure)
    by (destruct Hschema as [[-> ->]|[-> ->]]; reflexivity).
  cbn [bind]. rewrite Hcut'. cbn [negb failIf bind]. rewrite Hdom.
  cbn [bind]. rewrite HasSuffix_app, TrimSuffix_app_eq. reflexivity.
Qed.

(** X1: the scope parser accepts exactly the empty pattern and the
    patterns of the shape schema "://" host "/" prefix "**", where the
    schema is "https" (secure) or "https?" (not secure), the host holds no
    "/" and is "<current>" (empty domain) or "**." followed by a domain
    that does not start with a dot; the path is the prefix, or "/" for the
    empty prefix. *)
Theorem parseReturnTo_language (returnTo : string) (secure : bool)
    (domain path : string) :
  parseReturnTo returnTo = Ok (secure, domain, path) <->
  (returnTo = "" /\ secure = true /\ domain = "" /\ path = "/")
  \/ exists schema host prefix,
       returnTo = schema ++ "://" ++ host ++ "/" ++ prefix ++ "**"
       /\ ((schema = "https" /\ secure = true)
           \/ (schema = "https?" /\ secure = false))
       /\ strings.Contains host "/" = false
       /\ ((host = "<current>" /\ domain = "")
           \/ (host = "**." ++ domain
               /\ strings.HasPrefix domain "." = false))
       /\ path = (if (prefix =? "")%string then "/" else prefix).
Proof.
  split; [apply parseReturnTo_shape|].
  intros [(-> & -> & -> & ->)|(schema & host & prefix & H)];
    [reflexivity|].
  destruct H as (-> & Hschema & Hslash & Hhost & ->).
  now apply parseReturnTo_accepts_shape.
Qed.

Lemma parseReturnTo_language_witness :
  parseReturnTo "https?://**.example.com/app/**"
  = Ok (false, "example.com", "app/").
Proof.
  apply (proj2 (parseReturnTo_language _ _ _ _)). right.
  exists "https?", "**.example.com", "app/".
  repeat split; auto.
Defined.

(** X2: the scope is secure-only exactly for the empty pattern and for
    the patterns that start with "https://". *)
Theorem parseReturnTo_secure_iff_https (returnTo : string) (secure : bool)
    (domain path : string) :
  parseReturnTo returnTo = Ok (secure, domain, path) ->
  secure = (returnTo =? "")%string || strings.HasPrefix returnTo "https://".
Proof.
  intros H. apply parseReturnTo_grammar in H.
  destruct H as [(-> & -> & _)|(schema & host & prefix & -> & Hs & _)];
    [reflexivity|].
  rewrite HasPrefix_prefix.
  destruct Hs as [[-> ->]|[-> ->]]; simpl.
  - now rewrite prefix_nil.
  - reflexivity.
Qed.

Lemma parseReturnTo_secure_iff_https_witness :
  false = ("https?://<current>/**" =? "")%string
          || strings.HasPrefix "https?://<current>/**" "https://".
Proof.
  exact (parseReturnTo_secure_iff_https "https?://<current>/**" false ""
           "/" eq_refl).
Defined.

(** ** The cookies that [Compile] returns *)

Section ReturnedCookies.

Variable Valid : http.Cookie.t -> option string.


(** X5: a returned cookie carries the name and the value of the intent
    unchanged, is HttpOnly unless the intent reveals it to JavaScript, and
    has the scope of ReturnTo, the expiration of Expires and the mode of
    the navigation policy. *)
Theorem Compile_cookie_fields (i : Intent.t) (c : http.Cookie.t) :
  Compile Valid i = Ok c ->
  http.Cookie.Name c = Intent.Name i
  /\ http.Cookie.Value c = Intent.Value i
  /\ http.Cookie.HttpOnly c = negb (Intent.RevealToJavaScript i)
  /\ parseReturnTo (Intent.ReturnTo i)
     = Ok (http.Cookie.Secure c, http.Cookie.Domain c, http.Cookie.Path c)
  /\ resolveExpiration (Intent.Expires i)
     = Ok (http.Cookie.Expires c, http.Cookie.MaxAge c)
  /\ sameSiteMode (Intent.ReturnOnNavigationFrom i)
     = Ok (http.Cookie.SameSite c).
Proof.
  intros H. apply Compile_Ok_inv in H.
  destruct H as (secure & domain & path & expires & maxAge & mode & H).
  destruct H as (_ & Hscope & Hexp & _ & _ & Hmode & _ & -> & _).
  simpl. auto 10.
Qed.

(** X7: the reserved name prefixes are honoured in every returned cookie:
    a "__Secure-" cookie is Secure, and a "__Host-" cookie is Secure, has
    no Domain and has the Path "/". *)
Theorem Compile_prefix_guarantee (i : Intent.t) (c : http.Cookie.t) :
  Compile Valid i = Ok c ->
  (strings.HasPrefix (http.Cookie.Name c) "__Secure-" = true ->
   http.Cookie.Secure c = true)
  /\ (strings.HasPrefix (http.Cookie.Name c) "__Host-" = true ->
      http.Cookie.Secure c = true
      /\ http.Cookie.Domain c = "" /\ http.Cookie.Path c = "/").
Proof.
  intros H. apply Compile_Ok_inv in H.
  destruct H as (secure & domain & path & expires & maxAge & mode & H).
  destruct H as (_ & _ & _ & Hsec & Hhost & _ & _ & -> & _).
  simpl. split; intros Hname; rewrite Hname in *; simpl in *.
  - now destruct secure.
  - destruct secure; [|discriminate]. simpl in Hhost.
    destruct (String.eqb_spec domain ""); [|discriminate].
    destruct (String.eqb_spec path "/"); [|discriminate].
    auto.
Qed.

(** X8: a returned cookie always has an explicit SameSite mode, and
    SameSite=None only together with Secure. *)
Theorem Compile_SameSite_guarantee (i : Intent.t) (c : http.Cookie.t) :
  Compile Valid i = Ok c ->
  http.Cookie.SameSite c <> http.SameSiteDefaultMode
  /\ (http.Cookie.SameSite c = http.SameSiteNoneMode ->
      http.Cookie.Secure c = true).
Proof.
  intros H. apply Compile_Ok_inv in H.
  destruct H as (secure & domain & path & expires & maxAge & mode & H).
  destruct H as (_ & _ & _ & _ & _ & Hmode & Hnone & -> & _).
  simpl. split.
  - intros ->. unfold sameSiteMode in Hmode.
    destruct (_ =? SameSite)%string; [discriminate|].
    destruct (_ || _); [discriminate|].
    destruct (_ =? AnySite)%string; discriminate.
  - intros ->. now destruct secure.
Qed.

(** X6: the cookie container has the last word and nothing more.  A
    returned cookie has passed its check; its errors are reported only
    for intents that compile when the container accepts everything, and
    are about the very cookie that would be returned; every other failure
    is the same whatever the container. *)
Theorem Compile_delegated_validation (i : Intent.t) :
  (forall c, Compile Valid i = Ok c ->
     Valid c = None /\ Compile (fun _ => None) i = Ok c)
  /\ (forall msg, Compile Valid i = Err (ErrInvalidCookie msg) ->
        exists c, Compile (fun _ => None) i = Ok c /\ Valid c = Some msg)
  /\ (forall e, Compile Valid i = Err e ->
        kind e <> DelegatedValidationError ->
        forall Valid', Compile Valid' i = Err e).
Proof.
  split; [|split].
  - intros c H. apply Compile_Ok_inv in H.
    destruct H as (secure & domain & path & expires & maxAge & mode & H).
    destruct H as (H1 & H2 & H3 & H4 & H5 & H6 & H7 & -> & H8).
    split; [assumption|]. now apply Compile_Ok_intro.
  - intros msg. unfold Compile.
    destruct (negb _ && negb _); cbn [failIf bind]; [discriminate|].
    destruct (parseReturnTo _) as [[[secure domain] path]|e] eqn:Hscope;
      cbn [bind].
    + destruct (resolveExpiration _) as [[expires maxAge]|e] eqn:Hres;
        cbn [bind].
      * run_guards; intros H; inversion H; subst;
          try match goal with
            | Hmode : sameSiteMode _ = Err _ |- _ =>
                apply sameSiteMode_Err_inv in Hmode; discriminate Hmode
            end.
        eauto.
      * intros H; inversion H; subst e. unfold resolveExpiration in Hres.
        destruct (negb (time.IsZero _)); [discriminate|].
        destruct (negb (_ =? 0)); [discriminate|].
        destruct (Expiration.Session _); discriminate.
    + intros H; inversion H; subst e.
      apply parseReturnTo_Err_inv in Hscope. simpl in Hscope.
      destruct Hscope as [He|[He|[He|He]]]; discriminate He.
  - intros e H Hkind Valid'. revert H. unfold Compile.
    destruct (negb _ && negb _); cbn [failIf bind]; [trivial|].
    destruct (parseReturnTo _) as [[[secure domain] path]|e']; cbn [bind];
      [|trivial].
    destruct (resolveExpiration _) as [[expires maxAge]|e']; cbn [bind];
      [|trivial].
    run_guards; intros H; inversion H; subst; try reflexivity;
      exfalso; apply Hkind; reflexivity.
Qed.

End ReturnedCookies.


Lemma Compile_cookie_fields_witness :
  http.Cookie.Name
    (http.Cookie.mk "sid" "abc" "example.com" "app/" time.zero 0 true
       false http.SameSiteStrictMode) = "sid"
  /\ http.Cookie.HttpOnly
       (http.Cookie.mk "sid" "abc" "example.com" "app/" time.zero 0 true
          false http.SameSiteStrictMode) = negb true.
Proof.
  destruct (Compile_cookie_fields cookieValid
              (Intent.mk "sid" "abc" WhenUAIsClosed
                 "https://**.example.com/app/**" SameSite true)
              (http.Cookie.mk "sid" "abc" "example.com" "app/" time.zero 0
                 true false http.SameSiteStrictMode) eq_refl)
    as (Hname & _ & Hhttp & _).
  split; [exact Hname | exact Hhttp].
Defined.

Lemma Compile_prefix_guarantee_witness :
  http.Cookie.Secure
    (http.Cookie.mk "__Host-ID" "12345" "" "/" time.zero 86400 true true
       http.SameSiteLaxMode) = true
  /\ http.Cookie.Domain
       (http.Cookie.mk "__Host-ID" "12345" "" "/" time.zero 86400 true true
          http.SameSiteLaxMode) = ""
  /\ http.Cookie.Path
       (http.Cookie.mk "__Host-ID" "12345" "" "/" time.zero 86400 true true
          http.SameSiteLaxMode) = "/".
Proof.
  refine (proj2 (Compile_prefix_guarantee cookieValid
                   (Intent.mk "__Host-ID" "12345" (After (24 * time.Hour))
                      "" "" false)
                   (http.Cookie.mk "__Host-ID" "12345" "" "/" time.zero
                      86400 true true http.SameSiteLaxMode) _) eq_refl).
  vm_compute. reflexivity.
Defined.

Lemma Compile_SameSite_guarantee_witness :
  http.Cookie.SameSite
    (http.Cookie.mk "test" "value" "" "/" time.zero 86400 true true
       http.SameSiteNoneMode) <> http.SameSiteDefaultMode
  /\ http.Cookie.Secure
       (http.Cookie.mk "test" "value" "" "/" time.zero 86400 true true
          http.SameSiteNoneMode) = true.
Proof.
  assert (H : Compile cookieValid
                (Intent.mk "test" "value" (After (24 * time.Hour)) ""
                   AnySite false)
              = Ok (http.Cookie.mk "test" "value" "" "/" time.zero 86400
                      true true http.SameSiteNoneMode))
    by (vm_compute; reflexivity).
  destruct (Compile_SameSite_guarantee cookieValid _ _ H) as [H1 H2].
  split; [exact H1 | exact (H2 eq_refl)].
Defined.

Lemma Compile_delegated_validation_witness :
  exists c,
    Compile (fun _ => None)
      (Intent.mk "test" "value" (After (24 * time.Hour))
         "https://**.a..b/**" "" false) = Ok c
    /\ cookieValid c = Some "http: invalid Cookie.Domain".
Proof.
  refine (proj1 (proj2 (Compile_delegated_validation cookieValid
                          (Intent.mk "test" "value" (After (24 * time.Hour))
                             "https://**.a..b/**" "" false)))
            "http: invalid Cookie.Domain" _).
  vm_compute. reflexivity.
Defined.

(** ** Name prefixes and expirations, continued *)

Section MoreGuards.

Variable Valid : http.Cookie.t -> option string.


(** X10: an expiration built by [At], [After] or [Immediately], or the
    predefined [WhenUAIsClosed], never sets both fields: [Compile] does
    not fail with the conflicting-expiration error on it. *)
Theorem Compile_constructors_never_conflict (i : Intent.t) :
  (exists t, Intent.Expires i = At t)
  \/ (exists d, Intent.Expires i = After d)
  \/ Intent.Expires i = Immediately
  \/ Intent.Expires i = WhenUAIsClosed ->
  forall e, Compile Valid i = Err e ->
            kind e <> ConflictingExpirationError.
Proof.
  intros Hexp e.
  assert (Hexcl : negb (Expiration.After (Intent.Expires i) =? 0)
                  && negb (time.IsZero (Expiration.At (Intent.Expires i)))
                  = false).
  { destruct Hexp as [[t ->]|[[d ->]|[->| ->]]]; simpl;
      try reflexivity; apply andb_false_r. }
  unfold Compile. rewrite Hexcl. cbn [failIf bind].
  destruct (parseReturnTo _) as [[[secure domain] path]|e'] eqn:Hscope;
    cbn [bind].
  - destruct (resolveExpiration _) as [[expires maxAge]|e'] eqn:Hres;
      cbn [bind].
    + run_guards; intros H; inversion H; subst;
        try match goal with
          | Hmode : sameSiteMode _ = Err _ |- _ =>
              apply sameSiteMode_Err_inv in Hmode; subst
          end; discriminate.
    + intros H; inversion H; subst e'. unfold resolveExpiration in Hres.
      destruct (negb (time.IsZero _)); [discriminate|].
      destruct (negb (_ =? 0)); [discriminate|].
      destruct (Expiration.Session _); [discriminate|].
      inversion Hres. discriminate.
  - intros H; inversion H; subst e'.
    apply parseReturnTo_Err_inv in Hscope.
    destruct Hscope as [He|[He|[He|He]]]; rewrite He; discriminate.
Qed.

(** X11: [At] of the zero time is no expiration at all: such an intent
    never compiles, and fails with the missing-expiration error once the
    scope parser has accepted ReturnTo. *)
Theorem Compile_At_zero_time (i : Intent.t) (t : time.Time) :
  Intent.Expires i = At t ->
  time.IsZero t = true ->
  (forall c, Compile Valid i <> Ok c)
  /\ (forall scope, parseReturnTo (Intent.ReturnTo i) = Ok scope ->
        Compile Valid i = Err ErrNoExpiration).
Proof.
  intros Hexp Hzero.
  assert (Hc : Compile Valid i
               = bind (parseReturnTo (Intent.ReturnTo i))
                   (fun _ => Err ErrNoExpiration)).
  { unfold Compile, resolveExpiration. rewrite Hexp. simpl.
    rewrite Hzero. simpl.
    destruct (parseReturnTo _) as [[[s d] p]|e]; reflexivity. }
  rewrite Hc. split.
  - intros c. destruct (parseReturnTo _); discriminate.
  - intros scope ->. reflexivity.
Qed.

(** X12: the session flag only matters when neither a timestamp nor a
    duration is given: with one of them set, [Compile] returns the same
    result whatever the flag. *)
Theorem Compile_Session_flag_ignored (name value returnTo : string)
    (source : Source) (reveal : bool) (at_ : time.Time)
    (after : time.Duration) (session session' : bool) :
  time.IsZero at_ = false \/ after <> 0 ->
  Compile Valid
    (Intent.mk name value (Expiration.mk session at_ after) returnTo
       source reveal)
  = Compile Valid
      (Intent.mk name value (Expiration.mk session' at_ after) returnTo
         source reveal).
Proof.
  intros Hset. unfold Compile, resolveExpiration. simpl.
  destruct (time.IsZero at_); simpl; [|reflexivity].
  destruct Hset as [Hat|Hafter]; [discriminate|].
  destruct (Z.eqb_spec after 0); [contradiction | reflexivity].
Qed.

(** The empty ReturnTo is the pattern "https://<current>/**": any intent
    compiles to the same result with either. *)
Lemma Compile_default_ReturnTo (name value : string)
    (expires : Expiration.t) (source : Source) (reveal : bool) :
  Compile Valid (Intent.mk name value expires "" source reveal)
  = Compile Valid
      (Intent.mk name value expires "https://<current>/**" source reveal).
Proof. reflexivity. Qed.


End MoreGuards.


Lemma Compile_constructors_never_conflict_witness :
  kind (ErrPathPattern "https://<current>/foo")
  <> ConflictingExpirationError.
Proof.
  refine (Compile_constructors_never_conflict cookieValid
            (Intent.mk "test" "value" Immediately "https://<current>/foo"
               "" false)
            (or_intror (or_intror (or_introl eq_refl)))
            (ErrPathPattern "https://<current>/foo") eq_refl).
Defined.

Lemma Compile_At_zero_time_witness :
  Compile cookieValid
    (Intent.mk "test" "value" (At time.zero) "" "" false)
  = Err ErrNoExpiration.
Proof.
  exact (proj2 (Compile_At_zero_time cookieValid
                  (Intent.mk "test" "value" (At time.zero) "" "" false)
                  time.zero eq_refl eq_refl)
           (true, "", "/") eq_refl).
Defined.

Lemma Compile_Session_flag_ignored_witness :
  Compile cookieValid
    (Intent.mk "test" "value" (Expiration.mk true time.zero time.Hour)
       "" "" false)
  = Compile cookieValid
      (Intent.mk "test" "value" (Expiration.mk false time.zero time.Hour)
         "" "" false).
Proof.
  apply Compile_Session_flag_ignored. right. discriminate.
Defined.


(** ** The schema and the rest of the pattern *)

Lemma app_inv_head_string (p a b : string) : p ++ a = p ++ b -> a = b.
Proof.
  induction p as [|c p IH]; simpl; intros H; [assumption|].
  inversion H. auto.
Qed.

(** X3: the question mark of the schema only clears the secure flag:
    "https?://" followed by some text is accepted exactly when
    "https://" followed by the same text is, with the same domain and the
    same path. *)
Theorem parseReturnTo_schema_only_secure (rest domain path : string) :
  parseReturnTo ("https?://" ++ rest) = Ok (false, domain, path)
  <-> parseReturnTo ("https://" ++ rest) = Ok (true, domain, path).
Proof.
  split; intros H; apply parseReturnTo_shape in H;
    destruct H as [(H & _)|(schema & host & prefix & Hr & Hs & Hslash
                            & Hhost & ->)];
    try discriminate H.
  - destruct Hs as [[-> Hsec]|[-> _]]; [discriminate Hsec|].
    apply (app_inv_head_string "https?://") in Hr. subst rest.
    apply (parseReturnTo_accepts_shape "https" host prefix true domain); auto.
  - destruct Hs as [[-> _]|[-> Hsec]]; [|discriminate Hsec].
    apply (app_inv_head_string "https://") in Hr. subst rest.
    apply (parseReturnTo_accepts_shape "https?" host prefix false domain); auto.
Qed.

Lemma parseReturnTo_schema_only_secure_witness :
  parseReturnTo ("https://" ++ "**.example.com/app/**")
  = Ok (true, "example.com", "app/").
Proof.
  exact (proj1 (parseReturnTo_schema_only_secure "**.example.com/app/**"
                  "example.com" "app/") eq_refl).
Defined.

(** X14: the most restrictive scope, the only one a "__Host-" name may
    have, is obtained for five patterns and no other: the empty one, the
    host "<current>" or "**." with the path "/**", and the same two hosts
    with the path "//**". *)
Theorem parseReturnTo_most_restrictive (returnTo : string) :
  parseReturnTo returnTo = Ok (true, "", "/") <->
  returnTo = "" \/ returnTo = "https://<current>/**"
  \/ returnTo = "https://<current>//**"
  \/ returnTo = "https://**./**" \/ returnTo = "https://**.//**".
Proof.
  split.
  - intros H. apply parseReturnTo_shape in H.
    destruct H as [(-> & _)|(schema & host & prefix & H)]; [now left|].
    destruct H as (-> & Hs & _ & Hhost & Hpath). right.
    destruct Hs as [[-> _]|[_ Hsec]]; [|discriminate Hsec].
    assert (Hp : prefix = "" \/ prefix = "/").
    { destruct (String.eqb_spec prefix ""); [now left | now right]. }
    destruct Hhost as [[-> _]|[-> _]], Hp as [-> | ->]; simpl; auto.
  - intros [->|[->|[->|[->| ->]]]]; reflexivity.
Qed.

Lemma parseReturnTo_most_restrictive_witness :
  "https://**./**" = "" \/ "https://**./**" = "https://<current>/**"
  \/ "https://**./**" = "https://<current>//**"
  \/ "https://**./**" = "https://**./**"
  \/ "https://**./**" = "https://**.//**".
Proof.
  exact (proj1 (parseReturnTo_most_restrictive "https://**./**") eq_refl).
Defined.


(** * The seconds of a duration, exactly

    [time.Seconds] divides and adds in binary64.  The lemmas below follow
    the two roundings through [SpecFloat] and show that, for durations
    below [2 ^ 24] seconds, the integer conversion gives back the whole
    seconds of the duration. *)

(** ** Digits *)

Lemma digits2_pos_bounds (p : positive) :
  2 ^ (Zpos (digits2_pos p) - 1) <= Zpos p < 2 ^ Zpos (digits2_pos p).
Proof.
  induction p as [p IH|p IH|]; cbn [digits2_pos].
  - rewrite Pos2Z.inj_succ. replace (Z.succ (Zpos (digits2_pos p)) - 1)
      with (Z.succ (Zpos (digits2_pos p) - 1)) by lia.
    rewrite !Z.pow_succ_r by lia. lia.
  - rewrite Pos2Z.inj_succ. replace (Z.succ (Zpos (digits2_pos p)) - 1)
      with (Z.succ (Zpos (digits2_pos p) - 1)) by lia.
    rewrite !Z.pow_succ_r by lia. lia.
  - simpl. lia.
Qed.

Lemma digits2_pos_unique (p : positive) (d : Z) :
  2 ^ (d - 1) <= Zpos p < 2 ^ d -> Zpos (digits2_pos p) = d.
Proof.
  intros [Hlo Hhi]. pose proof (digits2_pos_bounds p) as [Hlo' Hhi'].
  set (d' := Zpos (digits2_pos p)) in *.
  assert (Hd : 0 < d).
  { destruct (Z_lt_le_dec 0 d); [assumption|].
    assert (2 ^ d <= 1) by (destruct (Z.eq_dec d 0) as [->|];
      [simpl; lia | rewrite Z.pow_neg_r by lia; lia]). lia. }
  destruct (Z_lt_le_dec d d') as [Hlt|Hge].
  - assert (2 ^ d <= 2 ^ (d' - 1)) by (apply Z.pow_le_mono_r; lia). lia.
  - destruct (Z_lt_le_dec d' d) as [Hlt|Hge']; [|lia].
    assert (2 ^ d' <= 2 ^ (d - 1)) by (apply Z.pow_le_mono_r; lia). lia.
Qed.

Lemma iter_xO_pow (p : positive) (m : positive) :
  Zpos (Pos.iter xO m p) = Zpos m * 2 ^ Zpos p.
Proof.
  induction p as [|p IH] using Pos.peano_ind.
  - simpl. lia.
  - rewrite Pos.iter_succ, Pos2Z.inj_succ, Z.pow_succ_r by lia.
    rewrite Pos2Z.inj_xO, IH. lia.
Qed.

(** ** Shifting right with a location *)

Lemma located_half (A D h : Z) (b r s : bool) :
  0 < D -> 0 <= h ->
  located A D (Build_shr_record (2 * h + Z.b2z b) r s) ->
  located A (2 * D) (Build_shr_record h b (orb r s)).
Proof.
  intros HD Hh. unfold located. cbn [shr_m shr_r shr_s].
  replace ((2 * h + Z.b2z b) * D) with (2 * (h * D) + Z.b2z b * D) by ring.
  replace ((2 * h + Z.b2z b + 1) * D)
    with (2 * (h * D) + Z.b2z b * D + D) by ring.
  replace (h * (2 * D)) with (2 * (h * D)) by ring.
  replace ((h + 1) * (2 * D)) with (2 * (h * D) + 2 * D) by ring.
  generalize (h * D). intros X (_ & HA & Hr & Hs).
  assert (Hrs : orb r s = true <-> A - (2 * X + Z.b2z b * D) <> 0).
  { rewrite orb_true_iff, Hr, Hs. lia. }
  destruct b; cbn [Z.b2z] in *; rewrite ?Z.mul_1_l, ?Z.mul_0_l in *;
    repeat match goal with
      | |- _ /\ _ => split
      | |- _ <-> _ => split
      | |- _ -> _ => intro
      end;
    try discriminate; try lia; try (apply Hrs; lia);
    match goal with
    | H : orb r s = true |- _ => apply Hrs in H; lia
    end.
Qed.

Lemma shr_1_located (A D : Z) (mrs : shr_record) :
  0 < D -> located A D mrs -> located A (2 * D) (shr_1 mrs).
Proof.
  intros HD. destruct mrs as [m r s]. intros H.
  assert (Hm : 0 <= m) by (destruct H as (H & _); exact H).
  destruct m as [|[p|p|]|p]; cbn [shr_1]; try lia.
  - apply (located_half A D 0 false r s); [lia | lia | exact H].
  - apply (located_half A D (Zpos p) true r s); [lia | lia | exact H].
  - apply (located_half A D (Zpos p) false r s); [lia | lia | exact H].
  - apply (located_half A D 0 true r s); [lia | lia | exact H].
Qed.

Lemma iter_shr_1_located (k : positive) (A D : Z) (mrs : shr_record) :
  0 < D -> located A D mrs ->
  located A (D * 2 ^ Zpos k) (iter_pos shr_1 k mrs).
Proof.
  revert A D mrs. induction k as [k IH|k IH|]; intros A D mrs HD H;
    cbn [iter_pos].
  - replace (D * 2 ^ Z.pos k~1)
      with (2 * D * 2 ^ Zpos k * 2 ^ Zpos k)
      by (replace (Z.pos k~1) with (Z.pos k + Z.pos k + 1) by lia;
          rewrite !Z.pow_add_r by lia; change (2 ^ 1) with 2; ring).
    assert (0 < 2 ^ Zpos k) by (apply Z.pow_pos_nonneg; lia).
    apply IH; [nia|]. apply IH; [lia|]. now apply shr_1_located.
  - replace (D * 2 ^ Z.pos k~0) with (D * 2 ^ Zpos k * 2 ^ Zpos k)
      by (replace (Z.pos k~0) with (Z.pos k + Z.pos k) by lia;
          rewrite Z.pow_add_r by lia; ring).
    assert (0 < 2 ^ Zpos k) by (apply Z.pow_pos_nonneg; lia).
    apply IH; [nia|]. now apply IH.
  - replace (D * 2 ^ 1) with (2 * D) by (change (2 ^ 1) with 2; ring).
    now apply shr_1_located.
Qed.

Lemma record_of_loc_located (A D m : Z) (l : location) :
  loc_ok A D m l -> located A D (shr_record_of_loc m l).
Proof.
  unfold loc_ok, located. intros (Hm & HA & Hl).
  destruct l as [|c]; [|destruct Hl as [Hne Hc]; destruct c];
    cbn [shr_record_of_loc shr_m shr_r shr_s];
    rewrite ?Z.compare_eq_iff, ?Z.compare_lt_iff, ?Z.compare_gt_iff in *;
    replace ((m + 1) * D) with (m * D + D) in * by ring;
    generalize dependent (m * D); intros;
    repeat match goal with
      | |- _ /\ _ => split
      | |- _ <-> _ => split
      | |- _ -> _ => intro
      end; try discriminate; try reflexivity; try lia; exfalso; lia.
Qed.

Lemma shr_located (A D : Z) (mrs : shr_record) (e n : Z) :
  0 < D -> located A D mrs ->
  let '(mrs', e') := shr mrs e n in
  located A (D * 2 ^ Z.max 0 n) mrs' /\ e' = e + Z.max 0 n.
Proof.
  intros HD H. destruct n as [|p|p]; cbn [shr].
  - simpl. rewrite Z.mul_1_r, Z.add_0_r. auto.
  - rewrite Z.max_r by lia. split; [now apply iter_shr_1_located | reflexivity].
  - rewrite Z.max_l by lia. simpl. rewrite Z.mul_1_r, Z.add_0_r. auto.
Qed.

(** Rounding to nearest: the chosen mantissa is within one half. *)
Lemma round_nearest_even_located (A D : Z) (mrs : shr_record) :
  0 < D -> located A D mrs ->
  let m := round_nearest_even (shr_m mrs) (loc_of_shr_record mrs) in
  shr_m mrs <= m <= shr_m mrs + 1
  /\ 2 * Z.abs (m * D - A) <= D
  /\ (A = shr_m mrs * D -> m = shr_m mrs).
Proof.
  intros HD. destruct mrs as [m r s]. unfold located.
  cbn [shr_m shr_r shr_s]. intros (Hm & HA & Hr & Hs).
  replace ((m + 1) * D) with (m * D + D) in HA by ring.
  assert (Hr' : if r then D <= 2 * (A - m * D) else 2 * (A - m * D) < D).
  { destruct r; [apply Hr; reflexivity|].
    destruct (Z_lt_le_dec (2 * (A - m * D)) D) as [|H]; [assumption|].
    apply Hr in H; discriminate. }
  assert (Hs' : if s then A - m * D <> 0 /\ 2 * (A - m * D) <> D
                else A - m * D = 0 \/ 2 * (A - m * D) = D).
  { destruct s; [apply Hs; reflexivity|].
    destruct (Z.eq_dec (A - m * D) 0); [now left|].
    destruct (Z.eq_dec (2 * (A - m * D)) D); [now right|].
    assert (false = true) by (apply Hs; auto). discriminate. }
  clear Hr Hs.
  destruct r, s; cbn [loc_of_shr_record round_nearest_even];
    try destruct (Z.even m);
    rewrite ?Z.mul_add_distr_r, ?Z.mul_1_l;
    generalize dependent (m * D); intros X HA Hr Hs;
    repeat split; lia.
Qed.

(** ** Rounding a long mantissa *)

Lemma fexp_normal (e : Z) :
  -1021 <= e -> fexp time.prec time.emax e = e - 53.
Proof.
  intros He. unfold fexp, emin, time.prec, time.emax. lia.
Qed.

Lemma Zdigits2_unique (m d : Z) :
  0 < m -> 2 ^ (d - 1) <= m < 2 ^ d -> Zdigits2 m = d.
Proof.
  intros Hm H. destruct m as [|p|p]; try lia.
  cbn [Zdigits2]. now apply digits2_pos_unique.
Qed.

(** [binary_round_aux] on a mantissa of at least 53 digits whose location
    is known: the result is a normal number [mf * 2 ^ ef], within half a
    unit in the last place of the fraction it was given. *)
Lemma binary_round_aux_spec (sx : bool) (mx : positive) (ex : Z)
    (lx : location) (A D : Z) :
  0 < D -> loc_ok A D (Zpos mx) lx ->
  let k := Zpos (digits2_pos mx) - 53 in
  0 <= k -> -1074 <= ex -> ex + k + 1 <= 971 ->
  exists mf ef,
    binary_round_aux time.prec time.emax sx (Zpos mx) ex lx
    = S754_finite sx mf ef
    /\ 2 ^ 52 <= Zpos mf < 2 ^ 53
    /\ ex + k <= ef <= ex + k + 1
    /\ 2 * Z.abs (Zpos mf * 2 ^ (ef - (ex + k)) * (D * 2 ^ k) - A)
       <= D * 2 ^ k.
Proof.
  intros HD Hloc k Hk Hex Hef.
  pose proof (digits2_pos_bounds mx) as Hd.
  fold (Zdigits2 (Zpos mx)) in Hd.
  set (d := Zdigits2 (Zpos mx)) in *.
  assert (Hdk : d = k + 53) by (unfold k, d; cbn [Zdigits2]; lia).
  unfold binary_round_aux, shr_fexp. fold d.
  rewrite (fexp_normal (d + ex)) by lia.
  replace (d + ex - 53 - ex) with k by lia.
  pose proof (shr_located A D (shr_record_of_loc (Zpos mx) lx) ex k HD
                (record_of_loc_located _ _ _ _ Hloc)) as Hshr.
  destruct (shr (shr_record_of_loc (Zpos mx) lx) ex k) as [mrs' e'].
  rewrite Z.max_r in Hshr by lia. destruct Hshr as [Hl' ->].
  assert (HP : 0 < 2 ^ k) by (apply Z.pow_pos_nonneg; lia).
  set (P := 2 ^ k) in *.
  assert (HDP : 0 < D * P) by nia.
  pose proof (round_nearest_even_located A (D * P) mrs' HDP Hl')
    as (Hm'' & Hhalf & _).
  set (m'' := round_nearest_even (shr_m mrs') (loc_of_shr_record mrs')) in *.
  assert (Hm1 : 2 ^ 52 <= shr_m mrs' < 2 ^ 53).
  { destruct Hl' as (_ & HA' & _). destruct Hloc as (_ & HA & _).
    replace (d - 1) with (52 + k) in Hd by lia.
    replace d with (53 + k) in Hd by lia.
    rewrite !Z.pow_add_r in Hd by lia. fold P in Hd.
    change (2 ^ 52) with 4503599627370496 in *.
    change (2 ^ 53) with 9007199254740992 in *.
    split; nia. }
  change (2 ^ 52) with 4503599627370496 in *.
  change (2 ^ 53) with 9007199254740992 in *.
  destruct (Z.eq_dec m'' 9007199254740992) as [Heq|Hne].
  - rewrite Heq.
    rewrite (Zdigits2_unique 9007199254740992 54) by (simpl; lia).
    rewrite (fexp_normal (54 + (ex + k))) by lia.
    replace (54 + (ex + k) - 53 - (ex + k)) with 1 by lia.
    cbn [shr_record_of_loc shr iter_pos shr_1 shr_m].
    replace (ex + k + 1 <=? time.emax - time.prec) with true
      by (symmetry; apply Z.leb_le; unfold time.emax, time.prec; lia).
    exists 4503599627370496%positive, (ex + k + 1).
    split; [reflexivity|]. split; [lia|]. split; [lia|].
    replace (ex + k + 1 - (ex + k)) with 1 by lia.
    change (Z.pos 4503599627370496 * 2 ^ 1) with 9007199254740992.
    rewrite <- Heq. exact Hhalf.
  - assert (Hpos : 0 < m'') by lia.
    rewrite (Zdigits2_unique m'' 53) by
      (try assumption; change (2 ^ (53 - 1)) with 4503599627370496;
       change (2 ^ 53) with 9007199254740992; lia).
    rewrite (fexp_normal (53 + (ex + k))) by lia.
    replace (53 + (ex + k) - 53 - (ex + k)) with 0 by lia.
    cbn [shr_record_of_loc shr shr_m].
    destruct m'' as [|mf|mf]; try lia.
    replace (ex + k <=? time.emax - time.prec) with true
      by (symmetry; apply Z.leb_le; unfold time.emax, time.prec; lia).
    exists mf, (ex + k).
    split; [reflexivity|]. split; [lia|]. split; [lia|].
    replace (ex + k - (ex + k)) with 0 by lia.
    rewrite Z.pow_0_r, Z.mul_1_r. exact Hhalf.
Qed.

(** ** The conversion of an integer *)

(** An integer below [2 ^ 53] converts without rounding, to a normal
    number. *)
Lemma binary_round_exact (sx : bool) (n : positive) :
  Zpos n < 2 ^ 53 ->
  exists m e,
    binary_round time.prec time.emax sx n 0 = S754_finite sx m e
    /\ 2 ^ 52 <= Zpos m < 2 ^ 53
    /\ e = Zpos (digits2_pos n) - 53
    /\ Zpos m = Zpos n * 2 ^ (- e).
Proof.
  intros Hn. pose proof (digits2_pos_bounds n) as Hd.
  set (d := Zpos (digits2_pos n)) in *.
  assert (Hd53 : d <= 53).
  { destruct (Z_lt_le_dec 53 d) as [H|H]; [|lia].
    assert (2 ^ 53 <= 2 ^ (d - 1)) by (apply Z.pow_le_mono_r; lia). lia. }
  assert (Hd1 : 1 <= d) by (unfold d; lia).
  unfold binary_round. fold d. rewrite (fexp_normal (d + 0)) by lia.
  assert (Hal : exists mz,
             shl_align n 0 (d + 0 - 53) = (mz, d - 53)
             /\ Zpos mz = Zpos n * 2 ^ (53 - d)).
  { unfold shl_align. replace (d + 0 - 53) with (d - 53) by lia.
    rewrite Z.sub_0_r.
    remember (d - 53) as e eqn:He. destruct e as [|p|p]; try lia.
    - exists n. split; [reflexivity|].
      replace (53 - d) with 0 by lia. simpl. lia.
    - exists (Pos.iter xO n p). split; [reflexivity|].
      rewrite iter_xO_pow. f_equal. f_equal. lia. }
  replace (d + 0 - 53) with (d - 53) in Hal |- * by lia.
  destruct Hal as (mz & Hal & Hmz). fold d. rewrite Hal.
  assert (Hmz53 : 2 ^ 52 <= Zpos mz < 2 ^ 53).
  { assert (E1 : 2 ^ 52 = 2 ^ (d - 1) * 2 ^ (53 - d))
      by (rewrite <- Z.pow_add_r by lia; f_equal; lia).
    assert (E2 : 2 ^ 53 = 2 ^ d * 2 ^ (53 - d))
      by (rewrite <- Z.pow_add_r by lia; f_equal; lia).
    assert (0 < 2 ^ (53 - d)) by (apply Z.pow_pos_nonneg; lia).
    rewrite Hmz, E1, E2. split.
    - apply Z.mul_le_mono_nonneg_r; lia.
    - apply Z.mul_lt_mono_pos_r; lia. }
  assert (Hdz : Zpos (digits2_pos mz) = 53)
    by (apply digits2_pos_unique; exact Hmz53).
  assert (Hloc : loc_ok (Zpos mz) 1 (Zpos mz) loc_Exact)
    by (unfold loc_ok; lia).
  pose proof (binary_round_aux_spec sx mz (d - 53) loc_Exact (Zpos mz) 1
                ltac:(lia) Hloc) as Hspec.
  rewrite Hdz in Hspec. cbv zeta in Hspec.
  destruct Hspec as (mf & ef & Heq & Hmf & Hef & Hhalf); try lia.
  change (2 ^ 52) with 4503599627370496 in *.
  change (2 ^ 53) with 9007199254740992 in *.
  replace (53 - 53) with 0 in * by lia.
  rewrite Z.add_0_r in *. simpl (2 ^ 0) in Hhalf.
  rewrite !Z.mul_1_r in Hhalf.
  assert (Hef' : ef = d - 53).
  { destruct (Z.eq_dec ef (d - 53)) as [|Hne]; [assumption|].
    replace (ef - (d - 53)) with 1 in Hhalf by lia.
    change (2 ^ 1) with 2 in Hhalf. lia. }
  subst ef. replace (d - 53 - (d - 53)) with 0 in Hhalf by lia.
  simpl (2 ^ 0) in Hhalf. rewrite Z.mul_1_r in Hhalf.
  assert (mf = mz) by lia. subst mf.
  exists mz, (d - 53). rewrite Heq.
  repeat split; try lia. rewrite Hmz. f_equal. f_equal. lia.
Qed.

(** ** Division *)

Lemma new_location_ok (q n r : Z) :
  0 <= q -> 0 <= r < n -> loc_ok (q * n + r) n q (new_location n r).
Proof.
  intros Hq Hr. unfold loc_ok.
  replace ((q + 1) * n) with (q * n + n) by ring.
  replace (q * n + r - q * n) with r by ring.
  split; [assumption|]. split; [lia|].
  unfold new_location, new_location_even, new_location_odd.
  destruct (Z.even n) eqn:Hev.
  - destruct (Z.eqb_spec r 0) as [->|Hne]; [lia|]. split; [lia | reflexivity].
  - destruct (Z.eqb_spec r 0) as [->|Hne]; [lia|]. split; [lia|].
    assert (Hodd : Z.odd n = true) by (rewrite <- Z.negb_even, Hev; reflexivity).
    apply Z.odd_spec in Hodd. destruct Hodd as [h Hh].
    destruct (Z.compare_spec (2 * r + 1) n) as [H|H|H];
      [apply Z.compare_lt_iff | apply Z.compare_lt_iff
       | apply Z.compare_gt_iff]; lia.
Qed.

(** The quotient of two normal numbers: a normal number within one unit
    of the scale [2 ^ (e1 - e2 - 53)] of the exact quotient. *)
Lemma SFdiv_spec (sx sy : bool) (m1 m2 : positive) (e1 e2 : Z) :
  2 ^ 52 <= Zpos m1 < 2 ^ 53 -> 2 ^ 52 <= Zpos m2 < 2 ^ 53 ->
  -1021 <= e1 - e2 <= 900 ->
  exists mf ef,
    SFdiv time.prec time.emax (S754_finite sx m1 e1) (S754_finite sy m2 e2)
    = S754_finite (xorb sx sy) mf ef
    /\ 2 ^ 52 <= Zpos mf < 2 ^ 53
    /\ e1 - e2 - 53 <= ef <= e1 - e2 - 51
    /\ Z.abs (Zpos mf * 2 ^ (ef - (e1 - e2 - 53)) * Zpos m2
              - Zpos m1 * 2 ^ 53) <= Zpos m2.
Proof.
  intros Hm1 Hm2 He. cbn [SFdiv]. unfold SFdiv_core_binary.
  rewrite (Zdigits2_unique (Zpos m1) 53), (Zdigits2_unique (Zpos m2) 53)
    by (try lia; assumption).
  replace (53 + e1 - (53 + e2)) with (e1 - e2) by lia.
  rewrite (fexp_normal (e1 - e2)) by lia.
  rewrite Z.min_l by lia.
  replace (e1 - e2 - (e1 - e2 - 53)) with 53 by lia.
  cbv beta iota. rewrite Z.shiftl_mul_pow2 by lia.
  change (2 ^ 52) with 4503599627370496 in *.
  change (2 ^ 53) with 9007199254740992 in *.
  pose proof (Z_div_mod (Zpos m1 * 9007199254740992) (Zpos m2) ltac:(lia))
    as Hdiv.
  destruct (Z.div_eucl (Zpos m1 * 9007199254740992) (Zpos m2)) as [q r].
  destruct Hdiv as [Hqr Hr].
  assert (Hq : 4503599627370496 <= q < 18014398509481984) by nia.
  destruct q as [|q|q]; try lia.
  assert (Hloc : loc_ok (Zpos m1 * 9007199254740992) (Zpos m2) (Zpos q)
                   (new_location (Zpos m2) r)).
  { rewrite Hqr. replace (Zpos m2 * Zpos q) with (Zpos q * Zpos m2) by ring.
    apply new_location_ok; lia. }
  pose proof (digits2_pos_bounds q) as Hdq.
  set (dq := Zpos (digits2_pos q)) in *.
  assert (Hdq' : dq = 53 \/ dq = 54).
  { destruct (Z_lt_le_dec dq 53) as [H|H].
    - assert (2 ^ dq <= 2 ^ 52) by (apply Z.pow_le_mono_r; lia).
      change (2 ^ 52) with 4503599627370496 in *. lia.
    - destruct (Z_lt_le_dec 54 dq) as [H'|H']; [|lia].
      assert (2 ^ 54 <= 2 ^ (dq - 1)) by (apply Z.pow_le_mono_r; lia).
      change (2 ^ 54) with 18014398509481984 in *. lia. }
  pose proof (binary_round_aux_spec (xorb sx sy) q (e1 - e2 - 53)
                (new_location (Zpos m2) r) _ (Zpos m2) ltac:(lia) Hloc)
    as Hspec.
  fold dq in Hspec. cbv zeta in Hspec.
  destruct Hspec as (mf & ef & Heq & Hmf & Hef & Hhalf); try lia.
  exists mf, ef. split; [exact Heq|].
  change (2 ^ 52) with 4503599627370496 in *.
  change (2 ^ 53) with 9007199254740992 in *.
  split; [lia|]. split; [lia|].
  set (k := dq - 53) in *.
  replace (ef - (e1 - e2 - 53)) with (ef - (e1 - e2 - 53 + k) + k) by lia.
  rewrite Z.pow_add_r by lia.
  assert (Hk : 2 ^ k = 1 \/ 2 ^ k = 2)
    by (destruct Hdq' as [H|H]; unfold k; rewrite H; [left | right];
        reflexivity).
  assert (0 < 2 ^ (ef - (e1 - e2 - 53 + k)))
    by (apply Z.pow_pos_nonneg; lia).
  set (W := Zpos mf * 2 ^ (ef - (e1 - e2 - 53 + k))) in *.
  replace (Zpos mf * (2 ^ (ef - (e1 - e2 - 53 + k)) * 2 ^ k))
    with (W * 2 ^ k) by (unfold W; ring).
  destruct Hk as [Hk|Hk]; rewrite Hk in *; nia.
Qed.

(** ** Addition *)

Lemma shl_align_le (mx : positive) (ex ex' : Z) :
  ex' <= ex ->
  exists mz, shl_align mx ex ex' = (mz, ex')
             /\ Zpos mz = Zpos mx * 2 ^ (ex - ex').
Proof.
  intros H. unfold shl_align.
  remember (ex' - ex) as e eqn:He. destruct e as [|p|p]; try lia.
  - exists mx. replace ex' with ex by lia. split; [reflexivity|].
    rewrite Z.sub_diag. simpl. lia.
  - exists (Pos.iter xO mx p). split; [reflexivity|].
    rewrite iter_xO_pow. f_equal. f_equal. lia.
Qed.

Lemma shl_align_ge (mx : positive) (ex ex' : Z) :
  ex <= ex' -> shl_align mx ex ex' = (mx, ex).
Proof.
  intros H. unfold shl_align.
  remember (ex' - ex) as e eqn:He. destruct e as [|p|p]; try lia;
    reflexivity.
Qed.

Lemma Zdigits2_le (m c : Z) : 0 < m < 2 ^ c -> Zdigits2 m <= c.
Proof.
  intros [Hm Hc]. destruct m as [|p|p]; try lia. cbn [Zdigits2].
  pose proof (digits2_pos_bounds p) as [Hlo _].
  destruct (Z_lt_le_dec c (Zpos (digits2_pos p))) as [H|H]; [|lia].
  assert (2 ^ c <= 2 ^ (Zpos (digits2_pos p) - 1))
    by (apply Z.pow_le_mono_r; lia). lia.
Qed.

Lemma Zdigits2_ge (m c : Z) : 0 <= c -> 2 ^ c <= m -> c + 1 <= Zdigits2 m.
Proof.
  intros Hc Hm.
  assert (0 < 2 ^ c) by (apply Z.pow_pos_nonneg; lia).
  destruct m as [|p|p]; try lia. cbn [Zdigits2].
  pose proof (digits2_pos_bounds p) as [_ Hhi].
  destruct (Z_lt_le_dec c (Zpos (digits2_pos p))) as [H'|H']; [lia|].
  assert (2 ^ Zpos (digits2_pos p) <= 2 ^ c)
    by (apply Z.pow_le_mono_r; lia). lia.
Qed.

(** The sum of two normal numbers of the same sign, the second one with
    the smaller exponent: the exact sum [M * 2 ^ ey] rounded to 53
    digits. *)
Lemma SFadd_spec (s : bool) (mx my : positive) (ex ey : Z) :
  2 ^ 52 <= Zpos mx < 2 ^ 53 -> 2 ^ 52 <= Zpos my < 2 ^ 53 ->
  ey <= ex -> -1074 <= ey -> ex <= 900 ->
  let M := Zpos mx * 2 ^ (ex - ey) + Zpos my in
  let k := Zdigits2 M - 53 in
  0 <= k
  /\ exists mf ef,
       SFadd time.prec time.emax (S754_finite s mx ex) (S754_finite s my ey)
       = S754_finite s mf ef
       /\ 2 ^ 52 <= Zpos mf < 2 ^ 53
       /\ ey + k <= ef <= ey + k + 1
       /\ 2 * Z.abs (Zpos mf * 2 ^ (ef - (ey + k)) * 2 ^ k - M) <= 2 ^ k.
Proof.
  intros Hmx Hmy Hey Hlo Hhi M k.
  assert (HQ : 0 < 2 ^ (ex - ey)) by (apply Z.pow_pos_nonneg; lia).
  assert (HM : 2 ^ 52 <= M) by (unfold M; nia).
  assert (HM' : M < 2 ^ (54 + (ex - ey))).
  { rewrite Z.pow_add_r by lia. change (2 ^ 54) with (2 * 2 ^ 53).
    unfold M. nia. }
  assert (Hk : 0 <= k) by (unfold k; pose proof (Zdigits2_ge M 52); lia).
  assert (Hk' : k <= 1 + (ex - ey)).
  { unfold k. pose proof (Zdigits2_le M (54 + (ex - ey))).
    assert (0 < 2 ^ 52) by reflexivity. lia. }
  split; [assumption|].
  cbn [SFadd]. rewrite Z.min_r by lia.
  destruct (shl_align_le mx ex ey Hey) as (a & Ha & Haz).
  rewrite Ha, (shl_align_ge my ey ey) by lia. cbn [fst].
  assert (Hsum : cond_Zopp s (Zpos a) + cond_Zopp s (Zpos my)
                 = cond_Zopp s (Zpos (a + my)))
    by (destruct s; reflexivity).
  rewrite Hsum.
  assert (HMp : Zpos (a + my) = M) by (unfold M; rewrite <- Haz; lia).
  assert (Hnorm : binary_normalize time.prec time.emax
                    (cond_Zopp s (Zpos (a + my))) ey false
                  = binary_round time.prec time.emax s (a + my) ey)
    by (destruct s; reflexivity).
  rewrite Hnorm. unfold binary_round.
  change (Zpos (digits2_pos (a + my))) with (Zdigits2 (Zpos (a + my))).
  rewrite HMp. rewrite (fexp_normal (Zdigits2 M + ey)) by (unfold k in Hk; lia).
  rewrite (shl_align_ge (a + my) ey) by (unfold k in Hk; lia).
  assert (Hloc : loc_ok M 1 (Zpos (a + my)) loc_Exact)
    by (unfold loc_ok; rewrite HMp; lia).
  pose proof (binary_round_aux_spec s (a + my) ey loc_Exact M 1
                ltac:(lia) Hloc) as Hspec.
  change (Zpos (digits2_pos (a + my))) with (Zdigits2 (Zpos (a + my)))
    in Hspec.
  rewrite HMp in Hspec. fold k in Hspec. cbv zeta in Hspec.
  destruct Hspec as (mf & ef & Heq & Hmf & Hef & Hhalf); try lia.
  exists mf, ef. rewrite Z.mul_1_l in Hhalf. rewrite HMp. auto.
Qed.

(** ** The seconds of a duration *)

Lemma float64_of_int_1e9 :
  time.float64_of_int 1000000000
  = S754_finite false 8388608000000000 (-23).
Proof. vm_compute. reflexivity. Qed.

(** The nanoseconds over [1e9]: a normal number below [1 - 2 ^ -30]. *)
Lemma nanoseconds_fraction (s : bool) (pn : positive) :
  Zpos pn < 1000000000 ->
  exists my ey,
    SFdiv time.prec time.emax (binary_round time.prec time.emax s pn 0)
      (time.float64_of_int 1000000000)
    = S754_finite s my ey
    /\ 2 ^ 52 <= Zpos my < 2 ^ 53
    /\ -82 <= ey <= -53
    /\ Zpos my * 2 ^ (ey + 83) + 2 ^ 53 < 2 ^ 83.
Proof.
  intros Hn. rewrite float64_of_int_1e9.
  destruct (binary_round_exact s pn) as (m1 & e1 & -> & Hm1 & He1 & Hv1).
  { change (2 ^ 53) with 9007199254740992. lia. }
  set (dn := Zpos (digits2_pos pn)) in *.
  assert (Hdn : 1 <= dn <= 30).
  { split; [unfold dn; lia|].
    apply (Zdigits2_le (Zpos pn) 30). change (2 ^ 30) with 1073741824. lia. }
  destruct (SFdiv_spec s false m1 8388608000000000 e1 (-23) Hm1)
    as (mf & ef & Heq & Hmf & Hef & Habs).
  { change (2 ^ 52) with 4503599627370496.
    change (2 ^ 53) with 9007199254740992. lia. }
  { lia. }
  rewrite xorb_false_r in Heq. exists mf, ef. split; [exact Heq|].
  split; [exact Hmf|].
  replace (e1 - -23 - 53) with (dn - 83) in * by lia.
  set (V := Zpos mf * 2 ^ (ef - (dn - 83))) in *.
  set (G := 2 ^ dn).
  assert (HG : 1 <= G <= 2 ^ 30).
  { unfold G. split.
    - assert (0 < 2 ^ dn) by (apply Z.pow_pos_nonneg; lia). lia.
    - apply Z.pow_le_mono_r; lia. }
  assert (HY : Zpos mf * 2 ^ (ef + 83) = V * G).
  { unfold V, G. rewrite <- Z.mul_assoc, <- Z.pow_add_r by lia.
    f_equal. f_equal. lia. }
  assert (Hm1G : Zpos m1 * G = Zpos pn * 2 ^ 53).
  { unfold G. rewrite Hv1, <- Z.mul_assoc, <- Z.pow_add_r by lia.
    f_equal. f_equal. lia. }
  rewrite HY.
  change (2 ^ 30) with 1073741824 in *.
  change (2 ^ 52) with 4503599627370496 in *.
  change (2 ^ 53) with 9007199254740992 in *.
  change (2 ^ 83) with 9671406556917033397649408 in *.
  assert (Hle : V * G * 8388608000000000
                <= Zpos pn * 9007199254740992 * 9007199254740992
                   + 8388608000000000 * G).
  { assert (V * 8388608000000000 - Zpos m1 * 9007199254740992
            <= 8388608000000000) by lia.
    assert (Zpos m1 * G * 9007199254740992
            = Zpos pn * 9007199254740992 * 9007199254740992)
      by (rewrite Hm1G; ring).
    nia. }
  assert (Hlt : V * G + 9007199254740992 < 9671406556917033397649408)
    by lia.
  split; [|exact Hlt].
  split; [lia|].
  assert (Hpow : 2 ^ (ef + 83) < 2 ^ 31).
  { change (2 ^ 31) with 2147483648.
    assert (0 < 2 ^ (ef + 83)) by (apply Z.pow_pos_nonneg; lia).
    rewrite <- HY in Hlt. nia. }
  apply Z.pow_lt_mono_r_iff in Hpow; lia.
Qed.

Lemma truncate_finite (s : bool) (m : positive) (e : Z) :
  e < 0 ->
  truncate (S754_finite s m e) = Some (cond_Zopp s (Zpos m / 2 ^ (- e))).
Proof. destruct e as [|p|p]; intros He; try lia. reflexivity. Qed.

Lemma binary_normalize_signed (s : bool) (p : positive) :
  binary_normalize time.prec time.emax (cond_Zopp s (Zpos p)) 0 false
  = binary_round time.prec time.emax s p 0.
Proof. destruct s; reflexivity. Qed.

(** The whole seconds as a float: an integer below [2 ^ 24]. *)
Lemma whole_seconds_float (s : bool) (ps : positive) :
  Zpos ps < 2 ^ 24 ->
  exists mx ex,
    binary_round time.prec time.emax s ps 0 = S754_finite s mx ex
    /\ 2 ^ 52 <= Zpos mx < 2 ^ 53
    /\ -52 <= ex <= -29
    /\ Zpos mx = Zpos ps * 2 ^ (- ex).
Proof.
  intros Hs.
  destruct (binary_round_exact s ps) as (mx & ex & Heq & Hmx & Hex & Hv).
  { change (2 ^ 24) with 16777216 in Hs.
    change (2 ^ 53) with 9007199254740992. lia. }
  exists mx, ex. repeat split; try assumption; try lia.
  pose proof (Zdigits2_le (Zpos ps) 24 (conj (Pos2Z.is_pos ps) Hs)) as H.
  cbn [Zdigits2] in H. lia.
Qed.

(** Seconds plus fraction, then truncation: the whole seconds. *)
Lemma seconds_plus_fraction (s : bool) (mx my : positive) (ex ey ps : Z) :
  0 < ps < 2 ^ 24 ->
  2 ^ 52 <= Zpos mx < 2 ^ 53 -> -52 <= ex <= -29 ->
  Zpos mx = ps * 2 ^ (- ex) ->
  2 ^ 52 <= Zpos my < 2 ^ 53 -> -82 <= ey <= -53 ->
  Zpos my * 2 ^ (ey + 83) + 2 ^ 53 < 2 ^ 83 ->
  truncate (SFadd time.prec time.emax (S754_finite s mx ex)
              (S754_finite s my ey))
  = Some (cond_Zopp s ps).
Proof.
  intros Hps Hmx Hex Hvx Hmy Hey Hvy.
  destruct (SFadd_spec s mx my ex ey Hmx Hmy) as (Hk & mf & ef & Heq & Hmf
                                                  & Hef & Hhalf);
    try lia.
  set (M := Zpos mx * 2 ^ (ex - ey) + Zpos my) in *.
  set (k := Zdigits2 M - 53) in *.
  rewrite Heq.
  set (T := 2 ^ (- ey)). set (T30 := 2 ^ (- ey - 30)).
  assert (HT30 : 0 < T30) by (apply Z.pow_pos_nonneg; lia).
  assert (HT : T = 2 ^ 30 * T30)
    by (unfold T, T30; rewrite <- Z.pow_add_r by lia; f_equal; lia).
  assert (HmxT : Zpos mx * 2 ^ (ex - ey) = ps * T).
  { rewrite Hvx. unfold T. rewrite <- Z.mul_assoc, <- Z.pow_add_r by lia.
    f_equal. f_equal. lia. }
  assert (HmyT : Zpos my + T30 < T).
  { assert (HG : 0 < 2 ^ (ey + 83)) by (apply Z.pow_pos_nonneg; lia).
    assert (E1 : T30 * 2 ^ (ey + 83) = 2 ^ 53)
      by (unfold T30; rewrite <- Z.pow_add_r by lia; f_equal; lia).
    assert (E2 : T * 2 ^ (ey + 83) = 2 ^ 83)
      by (unfold T; rewrite <- Z.pow_add_r by lia; f_equal; lia).
    apply (Z.mul_lt_mono_pos_r (2 ^ (ey + 83))); [assumption|]. nia. }
  assert (HMT : M = ps * T + Zpos my) by (unfold M; lia).
  assert (HMhi : M < 2 ^ (24 - ey)).
  { replace (24 - ey) with (24 + - ey) by lia.
    rewrite Z.pow_add_r by lia. fold T. nia. }
  assert (Hk24 : k <= - ey - 29).
  { unfold k. pose proof (Zdigits2_le M (24 - ey)). nia. }
  set (P := 2 ^ k) in *. set (R := 2 ^ (- ey - 29 - k)).
  assert (HP : 0 < P) by (apply Z.pow_pos_nonneg; lia).
  assert (HR : 0 < R) by (apply Z.pow_pos_nonneg; lia).
  assert (HPR : P * R = 2 * T30).
  { unfold P, R, T30. rewrite <- Z.pow_add_r, <- Z.pow_succ_r by lia.
    f_equal. lia. }
  set (W := Zpos mf * 2 ^ (ef - (ey + k))) in *.
  assert (HWP : W * P = Zpos mf * 2 ^ (ef - ey)).
  { unfold W, P. rewrite <- Z.mul_assoc, <- Z.pow_add_r by lia.
    f_equal. f_equal. lia. }
  assert (HW : 0 <= W)
    by (unfold W; apply Z.mul_nonneg_nonneg; [lia|];
        apply Z.pow_nonneg; lia).
  change (2 ^ 30) with 1073741824 in *.
  assert (Hlow : ps * T <= W * P).
  { assert (HpsT : ps * T = (ps * 536870912 * R) * P) by nia.
    destruct (Z_le_gt_dec (ps * 536870912 * R) W) as [H|H]; [nia|].
    exfalso.
    assert ((W + 1) * P <= ps * T) by nia. nia. }
  assert (Hupp : W * P < (ps + 1) * T).
  { assert (P <= 2 * T30) by nia. nia. }
  assert (Hneg : ef < 0) by lia.
  rewrite (truncate_finite s mf ef Hneg). f_equal. f_equal.
  set (U := 2 ^ (- ef)). set (H := 2 ^ (ef - ey)).
  assert (HU : 0 < U) by (apply Z.pow_pos_nonneg; lia).
  assert (HH : 0 < H) by (apply Z.pow_pos_nonneg; lia).
  assert (HTU : T = H * U)
    by (unfold T, H, U; rewrite <- Z.pow_add_r by lia; f_equal; lia).
  fold H in HWP. rewrite HWP, HTU in Hlow, Hupp.
  assert (ps * U <= Zpos mf) by nia.
  assert (Zpos mf < (ps + 1) * U) by nia.
  symmetry. apply (Z.div_unique (Zpos mf) U ps (Zpos mf - ps * U)); lia.
Qed.

(** [int(d.Seconds())] on the magnitudes: the sign, the whole seconds and
    the nanoseconds of a duration below [2 ^ 24] seconds. *)
Lemma Seconds_magnitude (s : bool) (sec n : Z) :
  0 <= sec < 2 ^ 24 -> 0 <= n < 1000000000 ->
  truncate
    (SFadd time.prec time.emax
       (time.float64_of_int (cond_Zopp s sec))
       (SFdiv time.prec time.emax (time.float64_of_int (cond_Zopp s n))
          (time.float64_of_int 1000000000)))
  = Some (cond_Zopp s sec).
Proof.
  intros Hsec Hn. unfold time.float64_of_int at 1 2.
  destruct sec as [|ps|ps], n as [|pn|pn]; try lia.
  - rewrite float64_of_int_1e9. destruct s; reflexivity.
  - replace (binary_normalize _ _ (cond_Zopp s 0) 0 false)
      with (S754_zero false) by (destruct s; reflexivity).
    rewrite binary_normalize_signed.
    destruct (nanoseconds_fraction s pn) as (my & ey & -> & Hmy & Hey & Hv);
      [lia|].
    cbn [SFadd]. rewrite truncate_finite by lia.
    replace (Zpos my / 2 ^ (- ey)) with 0; [destruct s; reflexivity|].
    symmetry. apply Z.div_small.
    assert (HG : 0 < 2 ^ (ey + 83)) by (apply Z.pow_pos_nonneg; lia).
    assert (E2 : 2 ^ (- ey) * 2 ^ (ey + 83) = 2 ^ 83)
      by (rewrite <- Z.pow_add_r by lia; f_equal; lia).
    assert (0 < 2 ^ 53) by reflexivity.
    split; [lia|]. apply (Z.mul_lt_mono_pos_r (2 ^ (ey + 83))); lia.
  - replace (binary_normalize _ _ (cond_Zopp s 0) 0 false)
      with (S754_zero false) by (destruct s; reflexivity).
    rewrite binary_normalize_signed, float64_of_int_1e9.
    destruct (whole_seconds_float s ps) as (mx & ex & -> & Hmx & Hex & Hv);
      [lia|].
    cbn [SFdiv xorb SFadd]. rewrite truncate_finite by lia.
    rewrite Hv, Z.div_mul; [reflexivity|].
    assert (0 < 2 ^ (- ex)) by (apply Z.pow_pos_nonneg; lia). lia.
  - rewrite !binary_normalize_signed.
    destruct (whole_seconds_float s ps) as (mx & ex & -> & Hmx & Hex & Hv);
      [lia|].
    destruct (nanoseconds_fraction s pn) as (my & ey & -> & Hmy & Hey & Hvy);
      [lia|].
    apply seconds_plus_fraction; try assumption; lia.
Qed.

(** Below [2 ^ 24] seconds, [int(d.Seconds())] is the duration in whole
    seconds, rounded toward zero. *)
Lemma int_Seconds_quot (d : time.Duration) :
  Z.abs d < 2 ^ 24 * time.Second ->
  int_of_float64 (time.Seconds d) = Z.quot d time.Second.
Proof.
  intros Hd. change time.Second with 1000000000 in *.
  change (2 ^ 24) with 16777216 in Hd.
  set (s := d <? 0).
  assert (Hq : Z.quot d 1000000000 = cond_Zopp s (Z.abs d / 1000000000)
               /\ Z.rem d 1000000000
                  = cond_Zopp s (Z.abs d mod 1000000000)).
  { unfold s. destruct (Z.ltb_spec d 0) as [Hneg|Hpos]; cbn [cond_Zopp].
    - rewrite Z.abs_neq by lia.
      rewrite <- (Z.opp_involutive d) at 1 3.
      rewrite Z.quot_opp_l, Z.rem_opp_l by lia.
      rewrite Z.quot_div_nonneg, Z.rem_mod_nonneg by lia. auto.
    - rewrite Z.abs_eq by lia.
      rewrite Z.quot_div_nonneg, Z.rem_mod_nonneg by lia. auto. }
  destruct Hq as [Hquot Hrem].
  assert (Hsec : 0 <= Z.abs d / 1000000000 < 2 ^ 24).
  { change (2 ^ 24) with 16777216. split.
    - apply Z.div_pos; lia.
    - apply Z.div_lt_upper_bound; lia. }
  assert (Hn : 0 <= Z.abs d mod 1000000000 < 1000000000)
    by (apply Z.mod_pos_bound; lia).
  unfold int_of_float64, time.Seconds.
  change time.Second with 1000000000.
  rewrite Hquot, Hrem, (Seconds_magnitude s _ _ Hsec Hn).
  change (2 ^ 24) with 16777216 in Hsec.
  replace (_ && _) with true; [reflexivity|].
  symmetry. apply andb_true_iff. unfold minInt, maxInt.
  change (2 ^ 63) with 9223372036854775808.
  split; apply Z.leb_le; destruct s; cbn [cond_Zopp]; lia.
Qed.

(** ** A negative duration *)

Section NegativeDuration.

Variable Valid : http.Cookie.t -> option string.


End NegativeDuration.



(** ** Whole seconds *)

Section WholeSeconds.

Variable Valid : http.Cookie.t -> option string.

(** X15: with no timestamp and a duration below [2 ^ 24] seconds (about
    194 days) in absolute value, every returned cookie has no absolute
    expiry and a max-age equal to the duration in whole seconds, rounded
    toward zero. *)
Theorem Compile_MaxAge_whole_seconds (i : Intent.t) (c : http.Cookie.t) :
  time.IsZero (Expiration.At (Intent.Expires i)) = true ->
  Z.abs (Expiration.After (Intent.Expires i)) < 2 ^ 24 * time.Second ->
  Compile Valid i = Ok c ->
  http.Cookie.MaxAge c
  = Z.quot (Expiration.After (Intent.Expires i)) time.Second
  /\ time.IsZero (http.Cookie.Expires c) = true.
Proof.
  intros Hat Hd H. apply Compile_Ok_inv in H.
  destruct H as (secure & domain & path & expires & maxAge & mode & H).
  destruct H as (_ & _ & Hres & _ & _ & _ & _ & -> & _).
  cbn [http.Cookie.MaxAge http.Cookie.Expires].
  apply resolveExpiration_Ok_inv in Hres.
  destruct Hres as [(Hnz & _)|[(_ & _ & -> & ->)|(_ & Hz & _ & -> & ->)]].
  - rewrite Hat in Hnz. discriminate Hnz.
  - split; [now apply int_Seconds_quot | reflexivity].
  - rewrite Hz. split; reflexivity.
Qed.

(** X16: a duration of less than one second, of either sign, is lost in
    the conversion: [After] of such a duration compiles to the same result
    as [WhenUAIsClosed], a cookie with neither expiry field set. *)
Theorem Compile_subsecond_is_session (name value returnTo : string)
    (source : Source) (reveal : bool) (d : time.Duration) :
  0 < Z.abs d < time.Second ->
  Compile Valid (Intent.mk name value (After d) returnTo source reveal)
  = Compile Valid
      (Intent.mk name value WhenUAIsClosed returnTo source reveal).
Proof.
  intros Hd.
  assert (Hq : int_of_float64 (time.Seconds d) = 0).
  { rewrite int_Seconds_quot.
    - change time.Second with 1000000000 in *.
      destruct (Z_lt_le_dec d 0) as [Hneg|Hpos].
      + rewrite <- (Z.opp_involutive d), Z.quot_opp_l by lia.
        rewrite Z.quot_small; lia.
      + apply Z.quot_small. lia.
    - change (2 ^ 24) with 16777216. change time.Second with 1000000000 in *.
      lia. }
  assert (Hres : resolveExpiration (After d)
                 = resolveExpiration WhenUAIsClosed).
  { unfold resolveExpiration. cbn.
    destruct (Z.eqb_spec d 0) as [->|_]; [simpl in Hd; lia|].
    cbn. now rewrite Hq. }
  assert (Hg : negb (Expiration.After (After d) =? 0)
               && negb (time.IsZero (Expiration.At (After d))) = false)
    by apply andb_false_r.
  unfold Compile. cbn [Intent.Expires Intent.ReturnTo Intent.Name
    Intent.Value Intent.ReturnOnNavigationFrom Intent.RevealToJavaScript].
  rewrite Hg.
  change (negb (Expiration.After WhenUAIsClosed =? 0)
          && negb (time.IsZero (Expiration.At WhenUAIsClosed)))
    with false.
  cbn [failIf bind].
  destruct (parseReturnTo returnTo) as [[[secure domain] path]|e];
    cbn [bind]; [|reflexivity].
  now rewrite Hres.
Qed.

End WholeSeconds.

Lemma Compile_MaxAge_whole_seconds_witness :
  http.Cookie.MaxAge
    (http.Cookie.mk "test" "value" "" "/" time.zero 5400 true true
       http.SameSiteLaxMode)
  = Z.quot (90 * time.Minute + 999 * time.Millisecond) time.Second.
Proof.
  refine (proj1 (Compile_MaxAge_whole_seconds cookieValid
                   (Intent.mk "test" "value"
                      (After (90 * time.Minute + 999 * time.Millisecond))
                      "" "" false)
                   (http.Cookie.mk "test" "value" "" "/" time.zero 5400
                      true true http.SameSiteLaxMode)
                   eq_refl _ _)).
  - vm_compute. reflexivity.
  - vm_compute. reflexivity.
Defined.

Lemma Compile_subsecond_is_session_witness :
  Compile cookieValid
    (Intent.mk "test" "value" (After (500 * time.Millisecond)) "" "" false)
  = Compile cookieValid
      (Intent.mk "test" "value" WhenUAIsClosed "" "" false).
Proof.
  apply Compile_subsecond_is_session. vm_compute. split; reflexivity.
Defined.
